(** * Viewport and coordinate-transform engine of the drawing comparison viewer

    A shallow embedding of the viewer components of the front end:
    the WebGL viewer (PixiViewer), the direct-compositing viewer
    (ComparisonViewer, built on react-zoom-pan-pinch) and the overview
    widget (MiniMap).

    Numbers.  JavaScript numbers are IEEE doubles; here every finite
    number is an exact rational of [Q], so an equation of this file is the
    equation the code satisfies up to floating-point rounding.  [Qdiv]
    by zero is [0] whereas JavaScript yields a non-finite value: every
    statement that depends on a quotient states that its divisor is not
    zero.  Equality of numbers is [==] ([Qeq]). *)

From Stdlib Require Import QArith Qminmax Qabs Qround ZArith List Bool Lia Lqa.
Import ListNotations.
Open Scope Q_scope.

(** ** The functions of the JavaScript [Math] object that the viewers use *)

Module Math.

Definition max (a b : Q) : Q := Qmax a b.
Definition min (a b : Q) : Q := Qmin a b.
Definition abs (a : Q) : Q := Qabs a.

(** [Math.round] rounds to the nearest integer, a half towards
    plus infinity: the floor of [a + 1/2]. *)
Definition round (a : Q) : Z := Qfloor (a + (1 # 2)).

End Math.

(** ** Geometry shared by the viewers *)

Record Point := mkPoint { px : Q; py : Q }.

Record IntPoint := mkIntPoint { ix : Z; iy : Z }.

(** The object handed to [setClickPos]. *)
Record ClickPos := mkClickPos { screen : IntPoint; original : IntPoint }.

(** The viewport rectangle handed to the MiniMap, in percent. *)
Record Bounds := mkBounds { bx : Q; by_ : Q; bwidth : Q; bheight : Q }.

(** The camera state of the specification. *)
Record ViewportTransform :=
  mkTransform { scale : Q; translateX : Q; translateY : Q }.

(** [screenToContent(p, transform) = (p - (translateX, translateY)) / scale] *)
Definition screenToContent (p : Point) (T : ViewportTransform) : Point :=
  {| px := (px p - translateX T) / scale T;
     py := (py p - translateY T) / scale T |}.

(** [contentToOriginal(p, scalingFactor) = p / scalingFactor], rounded. *)
Definition contentToOriginal (p : Point) (s : Q) : IntPoint :=
  {| ix := Math.round (px p / s); iy := Math.round (py p / s) |}.

Definition minScale : Q := 1 # 10.
Definition maxScale : Q := 10.

Definition inRange (s : Q) : Prop := minScale <= s /\ s <= maxScale.

Definition clamp (v lo hi : Q) : Q := Math.max lo (Math.min hi v).

Definition point_eq (p q : Point) : Prop := px p == px q /\ py p == py q.

(** JavaScript's [a > b] on numbers. *)
Definition gtb (a b : Q) : bool := negb (Qle_bool a b).

(** What [getBoundingClientRect] reports of an element. *)
Record DOMRect :=
  mkRect { left : Q; top : Q; rwidth : Q; rheight : Q }.

(** ** MiniMap: the overview widget *)

Module MiniMap.

(** The inline style of the viewport rectangle, each field in percent of
    the overview box. *)
Record Style := mkStyle { s_left : Q; s_top : Q; s_width : Q; s_height : Q }.

(** [viewportStyle]: "viewportBounds is already in %". *)
Definition viewportStyle (viewportBounds : Bounds) : Style :=
  {| s_left :=
       Math.max 0 (Math.min (100 - bwidth viewportBounds) (bx viewportBounds));
     s_top :=
       Math.max 0 (Math.min (100 - bheight viewportBounds) (by_ viewportBounds));
     s_width := Math.max 5 (Math.min 100 (bwidth viewportBounds));
     s_height := Math.max 5 (Math.min 100 (bheight viewportBounds)) |}.

(** [handleClick]: the click, relative to the overview box, is handed to
    [onNavigate] multiplied by 100.  [containerRef] is [None] while the
    box is not mounted. *)
Definition handleClick {A : Type} (containerRef : option DOMRect)
    (clientX clientY : Q) (onNavigate : Q -> Q -> A -> A) (st : A) : A :=
  match containerRef with
  | None => st
  | Some rect =>
      let x := (clientX - left rect) / rwidth rect in
      let y := (clientY - top rect) / rheight rect in
      onNavigate (x * 100) (y * 100) st
  end.

(** The rectangle stays inside the overview box. *)
Definition withinBox (s : Style) : Prop :=
  0 <= s_left s /\ s_left s + s_width s <= 100 /\
  0 <= s_top s /\ s_top s + s_height s <= 100.

End MiniMap.

(** ** PixiViewer: the WebGL viewer

    The revision with the overview widget.  The earlier revision has the
    same wheel, pointer and click listeners and the same three buttons,
    letter for letter in their arithmetic; it keeps no [viewportBounds]
    and its [initPixi] has no [catch]. *)

Module PixiViewer.

(** [app.screen] *)
Record Screen := mkScreen { width : Q; height : Q }.

(** The base sprite, of which the viewer reads the size only. *)
Record Sprite := mkSprite { sp_width : Q; sp_height : Q }.

(** The container that carries zoom and pan.  [scale.set(s)] sets both
    axes, so [scale.x] and [scale.y] are one number. *)
Record Container := mkContainer { mc_scale : Q; mc_x : Q; mc_y : Q }.

Inductive LayerKey := red | green | blue.

Record Overlay := mkOverlay { zIndex : Z; alpha : Q; visible : bool }.

Record Overlays :=
  mkOverlays { ov_red : option Overlay;
               ov_green : option Overlay;
               ov_blue : option Overlay }.

(** [pixiRef.current] *)
Record PixiRef :=
  mkPixiRef { app : option Screen;
              mainContainer : option Container;
              baseSprite : option Sprite;
              overlays : Overlays }.

Definition emptyRef : PixiRef :=
  {| app := None; mainContainer := None; baseSprite := None;
     overlays := {| ov_red := None; ov_green := None; ov_blue := None |} |}.

(** What the viewer writes to the console. *)
Inductive LogEntry :=
| Warn (key : LayerKey)      (* console.warn(`Failed to load ${key}:`) *)
| InitError.                 (* console.error('PixiJS init error:') *)

(** The state of a mounted viewer: the ref, the variables the listeners
    of [initPixi] close over, the React state, and the console. *)
Record State :=
  mkState { pixiRef : PixiRef;
            isDragging : bool;
            dragStart : Point;
            containerStart : Point;
            zoomLevel : Z;
            clickPos : option ClickPos;
            isLoading : bool;
            viewportBounds : Bounds;
            console : list LogEntry }.

(** [useState] initial values, on mount. *)
Definition mount : State :=
  {| pixiRef := emptyRef; isDragging := false;
     dragStart := mkPoint 0 0; containerStart := mkPoint 0 0;
     zoomLevel := 100%Z; clickPos := None; isLoading := true;
     viewportBounds := mkBounds 0 0 100 100; console := [] |}.

Definition set_pixiRef (st : State) (r : PixiRef) : State :=
  mkState r (isDragging st) (dragStart st) (containerStart st)
    (zoomLevel st) (clickPos st) (isLoading st) (viewportBounds st)
    (console st).

Definition set_mainContainer (st : State) (mc : Container) : State :=
  set_pixiRef st
    (mkPixiRef (app (pixiRef st)) (Some mc) (baseSprite (pixiRef st))
       (overlays (pixiRef st))).

Definition set_drag (st : State) (d : bool) (o c : Point) : State :=
  mkState (pixiRef st) d o c (zoomLevel st) (clickPos st) (isLoading st)
    (viewportBounds st) (console st).

Definition setZoomLevel (z : Z) (st : State) : State :=
  mkState (pixiRef st) (isDragging st) (dragStart st) (containerStart st)
    z (clickPos st) (isLoading st) (viewportBounds st) (console st).

Definition setClickPos (c : option ClickPos) (st : State) : State :=
  mkState (pixiRef st) (isDragging st) (dragStart st) (containerStart st)
    (zoomLevel st) c (isLoading st) (viewportBounds st) (console st).

Definition setIsLoading (b : bool) (st : State) : State :=
  mkState (pixiRef st) (isDragging st) (dragStart st) (containerStart st)
    (zoomLevel st) (clickPos st) b (viewportBounds st) (console st).

Definition setViewportBounds (vb : Bounds) (st : State) : State :=
  mkState (pixiRef st) (isDragging st) (dragStart st) (containerStart st)
    (zoomLevel st) (clickPos st) (isLoading st) vb (console st).

Definition log (e : LogEntry) (st : State) : State :=
  mkState (pixiRef st) (isDragging st) (dragStart st) (containerStart st)
    (zoomLevel st) (clickPos st) (isLoading st) (viewportBounds st)
    (console st ++ [e]).

(** The camera state a container stands for. *)
Definition transformOf (mc : Container) : ViewportTransform :=
  {| scale := mc_scale mc; translateX := mc_x mc; translateY := mc_y mc |}.

(** [updateViewportBounds]: the visible part of the sprite, in percent. *)
Definition boundsOf (a : Screen) (mc : Container) (bs : Sprite) : Bounds :=
  let vx := - mc_x mc / (sp_width bs * mc_scale mc) in
  let vy := - (mc_y mc - 60) / (sp_height bs * mc_scale mc) in
  let vw := width a / (sp_width bs * mc_scale mc) in
  let vh := (height a - 60) / (sp_height bs * mc_scale mc) in
  {| bx := Math.max 0 (vx * 100);
     by_ := Math.max 0 (vy * 100);
     bwidth := Math.min 100 (vw * 100);
     bheight := Math.min 100 (vh * 100) |}.

Definition updateViewportBounds (st : State) : State :=
  match app (pixiRef st), mainContainer (pixiRef st),
        baseSprite (pixiRef st) with
  | Some a, Some mc, Some bs => setViewportBounds (boundsOf a mc bs) st
  | _, _, _ => st
  end.

(** "Center view": the scale that fits the sprite below the 60px header,
    with a margin of 0.9, and the translation that centres it. *)
Definition fitScale (a : Screen) (bs : Sprite) : Q :=
  Math.min (width a / sp_width bs) ((height a - 60) / sp_height bs)
  * (9 # 10).

Definition fitContainer (a : Screen) (bs : Sprite) : Container :=
  let scale := fitScale a bs in
  {| mc_scale := scale;
     mc_x := (width a - sp_width bs * scale) / 2;
     mc_y := 60 + (height a - 60 - sp_height bs * scale) / 2 |}.

(** The body of the wheel listener once [delta] is chosen. *)
Definition zoomAt (delta : Q) (mouse : Point) (mc : Container) : Container :=
  let newScale := Math.max (1 # 10) (Math.min 10 (mc_scale mc * delta)) in
  let world := {| px := (px mouse - mc_x mc) / mc_scale mc;
                  py := (py mouse - mc_y mc) / mc_scale mc |} in
  {| mc_scale := newScale;
     mc_x := px mouse - px world * newScale;
     mc_y := py mouse - py world * newScale |}.

(** [const delta = e.deltaY > 0 ? 0.9 : 1.1] *)
Definition wheelDelta (deltaY : Q) : Q :=
  if gtb deltaY 0 then 9 # 10 else 11 # 10.

Definition onWheel (deltaY offsetX offsetY : Q) (st : State) : State :=
  match mainContainer (pixiRef st) with
  | None => st
  | Some mc =>
      let mc' := zoomAt (wheelDelta deltaY) (mkPoint offsetX offsetY) mc in
      updateViewportBounds
        (setZoomLevel (Math.round (mc_scale mc' * 100))
           (set_mainContainer st mc'))
  end.

(** The stage listeners exist once [initPixi] has run to its end, which
    is when the ref holds the container they close over. *)
Definition onPointerDown (global : Point) (st : State) : State :=
  match mainContainer (pixiRef st) with
  | None => st
  | Some mainContainer =>
      set_drag st true global
        (mkPoint (mc_x mainContainer) (mc_y mainContainer))
  end.

Definition onPointerMove (global : Point) (st : State) : State :=
  if negb (isDragging st) then st
  else
    match mainContainer (pixiRef st) with
    | None => st
    | Some mc =>
        updateViewportBounds
          (set_mainContainer st
             {| mc_scale := mc_scale mc;
                mc_x := px (containerStart st)
                        + (px global - px (dragStart st));
                mc_y := py (containerStart st)
                        + (py global - py (dragStart st)) |})
    end.

Definition endDrag (st : State) : State :=
  set_drag st false (dragStart st) (containerStart st).

(** The click listener: the measurement it hands to [setClickPos], if
    it gets that far. *)
Definition clickMeasurement (scaling_factor : Q) (global : Point)
    (st : State) : option ClickPos :=
  if gtb (Math.abs (px global - px (dragStart st))) 5 then None
  else
    match mainContainer (pixiRef st) with
    | None => None
    | Some mc =>
        let world := {| px := (px global - mc_x mc) / mc_scale mc;
                        py := (py global - mc_y mc) / mc_scale mc |} in
        Some {| screen := {| ix := Math.round (px global);
                             iy := Math.round (py global) |};
                original :=
                  {| ix := Math.round (px world / scaling_factor);
                     iy := Math.round (py world / scaling_factor) |} |}
    end.

Definition onClick (scaling_factor : Q) (global : Point) (st : State)
  : State :=
  match clickMeasurement scaling_factor global st with
  | None => st
  | Some m => setClickPos (Some m) st
  end.

Definition handleZoomIn (st : State) : State :=
  match mainContainer (pixiRef st) with
  | None => st
  | Some mc =>
      let ns := Math.min 10 (mc_scale mc * (13 # 10)) in
      updateViewportBounds
        (setZoomLevel (Math.round (ns * 100))
           (set_mainContainer st (mkContainer ns (mc_x mc) (mc_y mc))))
  end.

Definition handleZoomOut (st : State) : State :=
  match mainContainer (pixiRef st) with
  | None => st
  | Some mc =>
      let ns := Math.max (1 # 10) (mc_scale mc * (7 # 10)) in
      updateViewportBounds
        (setZoomLevel (Math.round (ns * 100))
           (set_mainContainer st (mkContainer ns (mc_x mc) (mc_y mc))))
  end.

Definition handleResetView (st : State) : State :=
  match app (pixiRef st), mainContainer (pixiRef st),
        baseSprite (pixiRef st) with
  | Some a, Some _, Some bs =>
      let mc' := fitContainer a bs in
      updateViewportBounds
        (setZoomLevel (Math.round (mc_scale mc' * 100))
           (set_mainContainer st mc'))
  | _, _, _ => st
  end.

Definition handleMiniMapNavigate (x y : Q) (st : State) : State :=
  match mainContainer (pixiRef st), baseSprite (pixiRef st),
        app (pixiRef st) with
  | Some mc, Some bs, Some a =>
      updateViewportBounds
        (set_mainContainer st
           {| mc_scale := mc_scale mc;
              mc_x := width a / 2 - x * sp_width bs * mc_scale mc;
              mc_y := (height a - 60) / 2 + 60
                      - y * sp_height bs * mc_scale mc |})
  | _, _, _ => st
  end.

(** *** Initialisation, once per page

    [initPixi] is asynchronous; an [Outcome] fixes how each of its
    awaits ends.  [None] and [false] stand for a rejected promise. *)
Record Outcome :=
  mkOutcome { appInit : option Screen;
              containerMounted : bool;
              baseLoad : option Sprite;
              redLoad : bool;
              greenLoad : bool;
              blueLoad : bool }.

(** One round of the overlay loop: the sprite on success, a warning
    otherwise. *)
Definition loadOverlay (key : LayerKey) (ok : bool) (z : Z)
    (acc : Overlays * list LogEntry) : Overlays * list LogEntry :=
  let (ovs, warnings) := acc in
  if ok then
    let sprite := {| zIndex := z; alpha := 6 # 10; visible := true |} in
    (match key with
     | red => mkOverlays (Some sprite) (ov_green ovs) (ov_blue ovs)
     | green => mkOverlays (ov_red ovs) (Some sprite) (ov_blue ovs)
     | blue => mkOverlays (ov_red ovs) (ov_green ovs) (Some sprite)
     end, warnings)
  else (ovs, warnings ++ [Warn key]).

Definition loadOverlays (o : Outcome) (ovs : Overlays)
  : Overlays * list LogEntry :=
  loadOverlay blue (blueLoad o) 3
    (loadOverlay green (greenLoad o) 2
       (loadOverlay red (redLoad o) 1 (ovs, []))).

(** The [catch] of [initPixi]. *)
Definition initFailed (st : State) : State :=
  setIsLoading false (log InitError st).

Definition initPixi (o : Outcome) (st : State) : State :=
  (* Cleanup existing *)
  let st := match app (pixiRef st) with
            | Some _ => set_pixiRef st emptyRef
            | None => st
            end in
  let st := setIsLoading true st in
  match appInit o with
  | None => initFailed st
  | Some a =>
      if negb (containerMounted o) then st
      else
        match baseLoad o with
        | None => initFailed st
        | Some bs =>
            let (ovs, warnings) := loadOverlays o (overlays (pixiRef st)) in
            let mc := fitContainer a bs in
            let st :=
              mkState (mkPixiRef (Some a) (Some mc) (Some bs) ovs)
                false (mkPoint 0 0) (mkPoint 0 0)
                (zoomLevel st) (clickPos st) (isLoading st)
                (viewportBounds st) (console st ++ warnings) in
            updateViewportBounds
              (setZoomLevel (Math.round (mc_scale mc * 100))
                 (setIsLoading false st))
        end
  end.

(** The cleanup the effect returns. *)
Definition cleanup (st : State) : State :=
  match app (pixiRef st) with
  | Some _ => set_pixiRef st emptyRef
  | None => st
  end.

(** A page change hands the mounted viewer new [data]: the effect on
    [imageUrls.base] and [data.scaling_factor] cleans up and runs again.
    The component stays mounted, so its React state is kept. *)
Definition pageChange (o : Outcome) (st : State) : State :=
  initPixi o (cleanup st).

(** *** What the component returns *)
Inductive View :=
| LoadingText
| ViewerUI (spinner : bool) (zoomLabel : Z) (coordinates : option ClickPos)
           (minimap : Bounds).

Definition render (hasImages : bool) (st : State) : View :=
  if negb hasImages then LoadingText
  else ViewerUI (isLoading st) (zoomLevel st) (clickPos st)
         (viewportBounds st).

(** [resizeTo: containerRef.current]: when the container changes size,
    Pixi resizes the renderer to it.  [app.screen] then has the new size;
    no code of the viewer runs. *)
Definition onResize (w h : Q) (st : State) : State :=
  match app (pixiRef st) with
  | None => st
  | Some _ =>
      set_pixiRef st
        (mkPixiRef (Some (mkScreen w h)) (mainContainer (pixiRef st))
           (baseSprite (pixiRef st)) (overlays (pixiRef st)))
  end.

(** *** Events of a mounted viewer *)
Inductive Event :=
| Resize (w h : Q)
| Wheel (deltaY offsetX offsetY : Q)
| PointerDown (global : Point)
| PointerMove (global : Point)
| PointerUp
| PointerUpOutside
| Click (global : Point)
| ZoomIn
| ZoomOut
| ResetView
| MiniMapNavigate (x y : Q).

Definition step (scaling_factor : Q) (st : State) (e : Event) : State :=
  match e with
  | Resize w h => onResize w h st
  | Wheel dy ox oy => onWheel dy ox oy st
  | PointerDown g => onPointerDown g st
  | PointerMove g => onPointerMove g st
  | PointerUp | PointerUpOutside => endDrag st
  | Click g => onClick scaling_factor g st
  | ZoomIn => handleZoomIn st
  | ZoomOut => handleZoomOut st
  | ResetView => handleResetView st
  | MiniMapNavigate x y => handleMiniMapNavigate x y st
  end.

Definition run (scaling_factor : Q) (st : State) (es : list Event) : State :=
  fold_left (step scaling_factor) es st.

(** The measurements [setClickPos] receives while the events are
    handled, oldest first. *)
Fixpoint measurements (scaling_factor : Q) (st : State) (es : list Event)
  : list ClickPos :=
  match es with
  | [] => []
  | e :: es' =>
      let emitted := match e with
                     | Click g =>
                         match clickMeasurement scaling_factor g st with
                         | Some m => [m]
                         | None => []
                         end
                     | _ => []
                     end in
      emitted ++ measurements scaling_factor (step scaling_factor st e) es'
  end.

(** Pointer down at [a], the moves of the drag, release and click at [b]. *)
Definition gesture (a b : Point) : list Event :=
  [PointerDown a; PointerMove b; PointerUp; Click b].

(** The scale of the camera, when there is one. *)
Definition scaleOf (st : State) : option Q :=
  option_map mc_scale (mainContainer (pixiRef st)).

End PixiViewer.

(** ** ComparisonViewer: the direct-compositing viewer

    The images sit in the content box of a [TransformWrapper] of
    react-zoom-pan-pinch, which owns scale and position. *)

Module ComparisonViewer.

(** What [data?.scaling_factor] can evaluate to. *)
Inductive JsValue :=
| JsUndefined
| JsNull
| JsNaN
| JsNum (q : Q).

(** [!v] is false exactly when [truthy v] is. *)
Definition truthy (v : JsValue) : bool :=
  match v with
  | JsNum q => negb (Qeq_bool q 0)
  | _ => false
  end.

Record SessionData := mkData { scaling_factor : JsValue }.

(** [data?.scaling_factor] *)
Definition scalingFactorOf (data : option SessionData) : JsValue :=
  match data with
  | None => JsUndefined
  | Some d => scaling_factor d
  end.

(** A click on the canvas: the pointer, the rectangle of
    [e.currentTarget], and the rectangle of the [img] inside it if
    [querySelector('img')] finds one. *)
Record MouseEvent :=
  mkMouseEvent { clientX : Q; clientY : Q;
                 currentTarget : DOMRect;
                 img : option DOMRect }.

Record State :=
  mkState { clickPos : option ClickPos;
            imageLoaded : bool;
            imageError : option unit;   (* 'Failed to load image' *)
            transform : ViewportTransform }.

Definition setClickPos (c : option ClickPos) (st : State) : State :=
  mkState c (imageLoaded st) (imageError st) (transform st).

Definition measure (x y s : Q) : ClickPos :=
  let originalX := Math.round (x / s) in
  let originalY := Math.round (y / s) in
  {| screen := {| ix := Math.round x; iy := Math.round y |};
     original := {| ix := originalX; iy := originalY |} |}.

(** [handleClick] of the viewer. *)
Definition handleClick (data : option SessionData) (e : MouseEvent)
    (st : State) : State :=
  match scalingFactorOf data with
  | JsNum s =>
      if Qeq_bool s 0 then st
      else
        let rect := currentTarget e in
        let x := clientX e - left rect in
        let y := clientY e - top rect in
        setClickPos (Some (measure x y s)) st
  | _ => st
  end.

(** [handleClick] of the optimised viewer, which measures from the
    [img] element. *)
Definition handleClickOptimized (data : option SessionData) (e : MouseEvent)
    (st : State) : State :=
  match scalingFactorOf data with
  | JsNum s =>
      if Qeq_bool s 0 then st
      else
        match img e with
        | None => st
        | Some rect =>
            let x := clientX e - left rect in
            let y := clientY e - top rect in
            setClickPos (Some (measure x y s)) st
        end
  | _ => st
  end.

(** "Reset loading state when data changes": the effect on
    [data.images.base]. *)
Definition pageChange (st : State) : State :=
  mkState (clickPos st) false None (transform st).

Definition handleImageError (st : State) : State :=
  mkState (clickPos st) (imageLoaded st) (Some tt) (transform st).

(** [handleMiniMapClick]: whatever [centerView] of the library does, it
    is not given the clicked point. *)
Definition handleMiniMapClick
    (centerView : ViewportTransform -> ViewportTransform)
    (percentX percentY : Q) (st : State) : State :=
  mkState (clickPos st) (imageLoaded st) (imageError st)
    (centerView (transform st)).

(** The content box is drawn with the CSS transform
    [translate(positionX, positionY) scale(scale)] about its top left
    corner, and [getBoundingClientRect] reports the box as drawn: an
    element laid out at [(offsetLeft, offsetTop)] with size [(w, h)]
    inside the content box is reported here, the wrapper being at the
    client origin. *)
Definition boundingClientRect (T : ViewportTransform)
    (offsetLeft offsetTop w h : Q) : DOMRect :=
  {| left := translateX T + scale T * offsetLeft;
     top := translateY T + scale T * offsetTop;
     rwidth := scale T * w;
     rheight := scale T * h |}.

(** The canvas [div] has [marginTop: '60px'] and starts at the left
    edge of the content box; the base image fills it. *)
Definition clickEvent (T : ViewportTransform) (p : Point) (w h : Q)
  : MouseEvent :=
  let r := boundingClientRect T 0 60 w h in
  {| clientX := px p; clientY := py p; currentTarget := r; img := Some r |}.

End ComparisonViewer.

(** ** TileViewer: the tiled viewer on OpenSeadragon *)

Module TileViewer.

(** A [canvas-click] of OpenSeadragon: [quick] is the library's verdict
    that the pointer was not dragged, [imagePoint] what
    [viewportToImageCoordinates (pointFromPixel position)] returns. *)
Record CanvasClick :=
  mkCanvasClick { quick : bool; position : Point; imagePoint : Point }.

Definition onCanvasClick (scaling_factor : Q) (event : CanvasClick)
  : option ClickPos :=
  if negb (quick event) then None
  else
    Some {| screen := {| ix := Math.round (px (position event));
                         iy := Math.round (py (position event)) |};
            original := contentToOriginal (imagePoint event)
                          scaling_factor |}.

End TileViewer.

Import PixiViewer.

(** ** Predicates and sample inputs of the properties *)

Definition sampleContainer : Container := mkContainer 1 0 0.

(** What each event does to the scale of the container. *)
Definition scaleAfter (st : State) (e : Event) (s : Q) : Q :=
  match e with
  | Wheel dy _ _ => clamp (s * wheelDelta dy) minScale maxScale
  | ZoomIn => Math.min 10 (s * (13 # 10))
  | ZoomOut => Math.max (1 # 10) (s * (7 # 10))
  | ResetView =>
      match app (pixiRef st), baseSprite (pixiRef st) with
      | Some a, Some bs => fitScale a bs
      | _, _ => s
      end
  | _ => s
  end.

Definition scaleInvariant (st : State) : Prop :=
  forall s, scaleOf st = Some s -> inRange s.

(** An 800 x 660 screen showing a 1000 x 800 page, every layer loaded. *)
Definition smallPage : Outcome :=
  mkOutcome (Some (mkScreen 800 660)) true (Some (mkSprite 1000 800))
    true true true.

(** The same screen showing a page rendered 12000 x 9000. *)
Definition largePage : Outcome :=
  mkOutcome (Some (mkScreen 800 660)) true (Some (mkSprite 12000 9000))
    true true true.

Definition someEvents : list Event :=
  [Wheel (-1) 50 50; ZoomIn; PointerDown (mkPoint 10 10);
   PointerMove (mkPoint 40 30); PointerUp; ResetView; ZoomOut;
   MiniMapNavigate (1 # 2) (1 # 2); Click (mkPoint 40 30)].

(** The screen point at which the content origin is drawn. *)
Definition contentOrigin (mc : Container) : Point :=
  mkPoint (mc_x mc) (mc_y mc).

(** The container [initPixi] leaves for [smallPage]. *)
Definition fitted : Container :=
  fitContainer (mkScreen 800 660) (mkSprite 1000 800).

(** The square of the Euclidean distance between two screen points. *)
Definition dist2 (a b : Point) : Q :=
  (px b - px a) * (px b - px a) + (py b - py a) * (py b - py a).

(** The overview box of the widget: [w-48 h-36], 192 x 144 pixels. *)
Definition overviewBox : DOMRect := mkRect 0 0 192 144.

Definition directStart : ComparisonViewer.State :=
  ComparisonViewer.mkState None true None (mkTransform 1 0 0).

Definition measuredBefore : ComparisonViewer.State :=
  ComparisonViewer.mkState
    (Some (mkClickPos (mkIntPoint 7 9) (mkIntPoint 3 4))) true None
    (mkTransform 1 0 0).

Definition overlayOf (key : LayerKey) (ovs : Overlays) : option Overlay :=
  match key with
  | red => ov_red ovs
  | green => ov_green ovs
  | blue => ov_blue ovs
  end.

Definition loaded (o : Outcome) (key : LayerKey) : bool :=
  match key with
  | red => redLoad o
  | green => greenLoad o
  | blue => blueLoad o
  end.

Definition zIndexOf (key : LayerKey) : Z :=
  match key with red => 1 | green => 2 | blue => 3 end.

(** Between pages the ref is either filled by [initPixi] or empty. *)
Definition wellFormed (st : State) : Prop :=
  app (pixiRef st) = None -> pixiRef st = emptyRef.

(** The first page with a measurement taken at (100, 100). *)
Definition measuredPage : State :=
  run 1 (initPixi smallPage mount) (gesture (mkPoint 100 100) (mkPoint 100 100)).

(** An 800 x 660 screen showing a page rendered 2000 x 1500. *)
Definition widePage : Outcome :=
  mkOutcome (Some (mkScreen 800 660)) true (Some (mkSprite 2000 1500))
    true true true.

(** One drag across the screen, from its right edge to its left edge. *)
Definition dragLeft : list Event :=
  [PointerDown (mkPoint 800 33); PointerMove (mkPoint (32 # 5) (159 # 5));
   PointerUp].

(** Thirteen presses of the zoom-in button, then twenty-five such drags. *)
Definition zoomedToCorner : list Event :=
  repeat ZoomIn 13 ++ concat (repeat dragLeft 25).



(** ** Layer toggles and overlay opacity

    [handleLayerToggle] is the same in every viewer; the Controls panel
    calls it with the keys ['red'], ['green'] and ['blue'] only. *)

Module Layers.

Record Layers := mkLayers { l_red : bool; l_green : bool; l_blue : bool }.

(** [useState({ red: true, green: true, blue: true })] *)
Definition initial : Layers := mkLayers true true true.

(** [layers[key]] *)
Definition get (layers : Layers) (key : LayerKey) : bool :=
  match key with
  | red => l_red layers
  | green => l_green layers
  | blue => l_blue layers
  end.

(** [setLayers(prev => ({ ...prev, [layer]: value }))] *)
Definition handleLayerToggle (layer : LayerKey) (value : bool)
    (prev : Layers) : Layers :=
  match layer with
  | red => mkLayers value (l_green prev) (l_blue prev)
  | green => mkLayers (l_red prev) value (l_blue prev)
  | blue => mkLayers (l_red prev) (l_green prev) value
  end.

(** The "Reset" button of the Controls panel: three toggles in a row. *)
Definition resetLayers (prev : Layers) : Layers :=
  handleLayerToggle blue true
    (handleLayerToggle green true (handleLayerToggle red true prev)).

(** The effect of the WebGL viewer on [layers] and [opacity]: every
    sprite that exists is shown or hidden and given the slider's alpha. *)
Definition syncSprite (layers : Layers) (opacity : Q) (key : LayerKey)
    (sprite : option Overlay) : option Overlay :=
  match sprite with
  | None => None
  | Some sp =>
      Some {| zIndex := zIndex sp;
              alpha := opacity / 100;
              visible := get layers key |}
  end.

Definition syncOverlays (layers : Layers) (opacity : Q) (ovs : Overlays)
  : Overlays :=
  {| ov_red := syncSprite layers opacity red (ov_red ovs);
     ov_green := syncSprite layers opacity green (ov_green ovs);
     ov_blue := syncSprite layers opacity blue (ov_blue ovs) |}.

(** What is composited of a layer: nothing if the sprite is missing or
    hidden, else its alpha. *)
Definition shown (sprite : option Overlay) : option Q :=
  match sprite with
  | Some sp => if visible sp then Some (alpha sp) else None
  | None => None
  end.

End Layers.

(** ** TileViewer: overlay items *)

Module TileLayers.

(** [overlayImagesRef.current]: the opacity of each overlay item that has
    loaded. *)
Record Items :=
  mkItems { it_red : option Q; it_green : option Q; it_blue : option Q }.

(** [itemCount] is [viewer.world.getItemCount()], [None] while there is no
    viewer. *)
Record State :=
  mkState { itemCount : option nat;
            items : Items;
            layers : Layers.Layers;
            opacity : Q }.

Definition setOpacityOf (item : option Q) (v : Q) : option Q :=
  match item with
  | Some _ => Some v
  | None => None
  end.

(** "Update overlay visibility when layers toggle": the effect on
    [layers] and [opacity]. *)
Definition layerEffect (st : State) : State :=
  match itemCount st with
  | None => st
  | Some n =>
      if (n <? 2)%nat then st
      else
        let level (key : LayerKey) :=
          if Layers.get (layers st) key then opacity st / 100 else 0 in
        mkState (itemCount st)
          {| it_red := setOpacityOf (it_red (items st)) (level red);
             it_green := setOpacityOf (it_green (items st)) (level green);
             it_blue := setOpacityOf (it_blue (items st)) (level blue) |}
          (layers st) (opacity st)
  end.

(** [handleOpacityChange]: the state, and at once every loaded item. *)
Definition handleOpacityChange (value : Q) (st : State) : State :=
  mkState (itemCount st)
    {| it_red := setOpacityOf (it_red (items st)) (value / 100);
       it_green := setOpacityOf (it_green (items st)) (value / 100);
       it_blue := setOpacityOf (it_blue (items st)) (value / 100) |}
    (layers st) value.

Definition handleLayerToggle (layer : LayerKey) (value : bool) (st : State)
  : State :=
  mkState (itemCount st) (items st)
    (Layers.handleLayerToggle layer value (layers st)) (opacity st).

Definition itemOf (key : LayerKey) (it : Items) : option Q :=
  match key with
  | red => it_red it
  | green => it_green it
  | blue => it_blue it
  end.

End TileLayers.

(** ** ComparisonViewer: the viewport rectangle for the MiniMap *)

Module Transformed.

(** [handleTransform] of the viewer: the new [viewportBounds], or the old
    ones when the container or the library's ref is missing. *)
Definition handleTransform (containerRef : option DOMRect)
    (ref : option ViewportTransform) (viewportBounds : Bounds) : Bounds :=
  match containerRef, ref with
  | Some container, Some state =>
      let scale := scale state in
      let x := - translateX state / scale in
      let y := - translateY state / scale in
      let width := rwidth container / scale in
      let height := rheight container / scale in
      {| bx := x; by_ := y; bwidth := width; bheight := height |}
  | _, _ => viewportBounds
  end.

(** [ref.state] as the optimised viewer reads it, each field through
    [|| 1] or [|| 0]. *)
Record RefState :=
  mkRefState { r_scale : ComparisonViewer.JsValue;
               r_positionX : ComparisonViewer.JsValue;
               r_positionY : ComparisonViewer.JsValue }.

(** [v || d] for a number [d]. *)
Definition orElse (v : ComparisonViewer.JsValue) (d : Q) : Q :=
  match v with
  | ComparisonViewer.JsNum q => if Qeq_bool q 0 then d else q
  | _ => d
  end.

(** [handleTransformEnd]: the new [viewportBoundsRef.current] and
    [zoomLevel]. *)
Definition handleTransformEnd (containerRef : option DOMRect)
    (ref : option RefState) (current : Bounds * Z) : Bounds * Z :=
  match containerRef, ref with
  | Some container, Some state =>
      let scale := orElse (r_scale state) 1 in
      let x := - (orElse (r_positionX state) 0) / scale in
      let y := - (orElse (r_positionY state) 0) / scale in
      let width := rwidth container / scale in
      let height := rheight container / scale in
      ({| bx := x; by_ := y; bwidth := width; bheight := height |},
       Math.round (scale * 100))
  | _, _ => current
  end.

End Transformed.

(** ** The throttle helper of the optimised viewer *)

Module Throttle.

Section Throttle.

Variables A R : Type.
Variable func : A -> R.

(** The closure's [inThrottle] and [lastResult], and the arguments
    [func] has been applied to so far. *)
Record State :=
  mkState { inThrottle : bool; lastResult : option R; applied : list A }.

Definition initial : State := mkState false None [].

(** A call of the throttled function: the new state and what the call
    returns ([None] is [undefined]). *)
Definition call (args : A) (st : State) : State * option R :=
  if negb (inThrottle st) then
    let r := func args in
    (mkState true (Some r) (applied st ++ [args]), Some r)
  else (st, lastResult st).

(** The animation frame callback. *)
Definition frame (st : State) : State :=
  mkState false (lastResult st) (applied st).

(** A burst of calls with no frame in between: the final state and the
    results in order. *)
Fixpoint burst (argss : list A) (st : State) : State * list (option R) :=
  match argss with
  | [] => (st, [])
  | args :: rest =>
      let (st1, r) := call args st in
      let (st2, rs) := burst rest st1 in
      (st2, r :: rs)
  end.

End Throttle.

End Throttle.

(** ** App: upload, processing, results

    [handleUpload] and [handlePageChange] are asynchronous.  A handler is
    cut at its await: the part before it, and the part that runs when
    the request settles, which may find a state other handlers have
    changed in between. *)

Module App.

Inductive Step := upload | processing | results.

Section App.

(** The upload response, a page response, an error message, and the two
    object spreads that build the session data; [prev] of the second is
    [None] when the state holds [null]. *)
Variables UploadResult ProcessResult SessionData Message : Type.
Variable newSession : UploadResult -> ProcessResult -> SessionData.
Variable spread : option SessionData -> ProcessResult -> SessionData.

Record State :=
  mkState { step : Step;
            sessionData : option SessionData;
            error : option Message }.

(** [useState('upload')], [useState(null)], [useState(null)] *)
Definition initial : State := mkState upload None None.

(** How the awaits of [handleUpload] end. *)
Inductive UploadOutcome :=
| Uploaded (u : UploadResult) (r : ProcessResult)
| UploadFailed (message : Message).

(** [handleUpload] up to its first await. *)
Definition uploadStarted (st : State) : State :=
  mkState processing (sessionData st) None.

(** [handleUpload] from there to its end. *)
Definition uploadSettled (o : UploadOutcome) (st : State) : State :=
  match o with
  | Uploaded u r => mkState results (Some (newSession u r)) (error st)
  | UploadFailed message => mkState upload (sessionData st) (Some message)
  end.

(** [handlePageChange] once [processPage] has settled:
    [setSessionData(prev => ({ ...prev, ...result }))] or
    [setError(err.message)]. *)
Definition pageSettled (o : ProcessResult + Message) (st : State) : State :=
  match o with
  | inl result =>
      mkState (step st) (Some (spread (sessionData st) result)) (error st)
  | inr message => mkState (step st) (sessionData st) (Some message)
  end.

(** [handlePageChange] whose request settles before anything else
    happens; without session data no request is made. *)
Definition handlePageChange (o : ProcessResult + Message) (st : State)
  : State :=
  match sessionData st with
  | None => st
  | Some _ => pageSettled o st
  end.

Definition handleReset (st : State) : State := mkState upload None None.

(** The close button of the error banner. *)
Definition closeError (st : State) : State :=
  mkState (step st) (sessionData st) None.

Inductive Event :=
| UploadStarted
| UploadSettled (o : UploadOutcome)
| PageChange (o : ProcessResult + Message)
| PageSettled (o : ProcessResult + Message)
| Reset
| CloseError.

Definition handle (st : State) (e : Event) : State :=
  match e with
  | UploadStarted => uploadStarted st
  | UploadSettled o => uploadSettled o st
  | PageChange o => handlePageChange o st
  | PageSettled o => pageSettled o st
  | Reset => handleReset st
  | CloseError => closeError st
  end.

(** What [main] shows. *)
Inductive Screen :=
| UploadPage
| ProcessingSpinner
| Viewer (data : SessionData)
| Blank.

(** What the component returns: the step the header's stepper marks,
    whether the header offers "New Comparison", the error banner, and
    the main content. *)
Record Rendered :=
  mkRendered { stepper : Step;
               newComparison : bool;
               banner : option Message;
               main : Screen }.

Definition render (st : State) : Rendered :=
  {| stepper := step st;
     newComparison := match step st with results => true | _ => false end;
     banner := error st;
     main := match step st with
             | upload => UploadPage
             | processing => ProcessingSpinner
             | results =>
                 match sessionData st with
                 | Some data => Viewer data
                 | None => Blank
                 end
             end |}.

End App.

End App.

(** The zoom label and the overview rectangle agree with the camera. *)
Definition inSync (a : Screen) (bs : Sprite) (st : State) : Prop :=
  app (pixiRef st) = Some a /\ baseSprite (pixiRef st) = Some bs /\
  exists mc, mainContainer (pixiRef st) = Some mc /\
             zoomLevel st = Math.round (mc_scale mc * 100) /\
             viewportBounds st = boundsOf a mc bs.

(** The small page at scale 2, drawn from (-300, -100). *)
Definition zoomedIn : State :=
  set_mainContainer (initPixi smallPage mount) (mkContainer 2 (-300) (-100)).

(** A page change during which the red toggle is off and the slider at
    30: the layer state the viewer keeps across it. *)
Definition redHidden : Layers.Layers := Layers.mkLayers false true true.

(** A tiled viewer with the base image and two overlays in its world,
    the red toggle off, the slider at 60. *)
Definition tileState : TileLayers.State :=
  TileLayers.mkState (Some 3%nat)
    (TileLayers.mkItems (Some 0) None (Some (6 # 10))) redHidden 60.

(** An 800 x 600 container at the client origin. *)
Definition viewerBox : DOMRect := mkRect 0 0 800 600.

(** A wheel turn, a drag and a release, for the witnesses. *)
Definition panGesture : list Event :=
  [Wheel 1 300 200; PointerDown (mkPoint 300 200);
   PointerMove (mkPoint 310 180); PointerMove (mkPoint 350 260); PointerUp].

(** * Properties *)

(** ** Arithmetic of [Math.max], [Math.min] and [clamp] *)

Lemma max_lower (a b : Q) : a <= Math.max a b.
Proof. apply Q.le_max_l. Qed.

Lemma max_upper (a b c : Q) : a <= c -> b <= c -> Math.max a b <= c.
Proof. intros Ha Hb. apply Q.max_lub; assumption. Qed.

Lemma min_upper (a b : Q) : Math.min a b <= a.
Proof. apply Q.le_min_l. Qed.

Lemma min_lower (a b c : Q) : c <= a -> c <= b -> c <= Math.min a b.
Proof. intros Ha Hb. apply Q.min_glb; assumption. Qed.

Lemma clamp_inRange (v : Q) : inRange (clamp v minScale maxScale).
Proof.
  unfold inRange, clamp. split.
  - apply max_lower.
  - apply max_upper.
    + unfold minScale, maxScale. lra.
    + apply min_upper.
Qed.

Lemma clamp_id (v : Q) : inRange v -> clamp v minScale maxScale == v.
Proof.
  intros [Hlo Hhi]. unfold clamp, Math.max, Math.min.
  rewrite (Q.min_r maxScale v) by exact Hhi.
  apply Q.max_r. exact Hlo.
Qed.

Lemma inRange_pos (s : Q) : inRange s -> 0 < s.
Proof. intros [Hlo _]. unfold minScale in Hlo. lra. Qed.

Lemma gtb_true (a b : Q) : gtb a b = true <-> b < a.
Proof.
  unfold gtb. rewrite negb_true_iff.
  split.
  - intros H. apply Qnot_le_lt. intros Hle.
    apply Qle_bool_iff in Hle. congruence.
  - intros H. destruct (Qle_bool a b) eqn:E; [|reflexivity].
    apply Qle_bool_iff in E. lra.
Qed.

Lemma gtb_false (a b : Q) : gtb a b = false <-> a <= b.
Proof.
  unfold gtb. rewrite negb_false_iff. apply Qle_bool_iff.
Qed.

(** ** Wheel zoom *)

Lemma zoomAt_scale (f : Q) (p : Point) (mc : Container) :
  mc_scale (zoomAt f p mc) = clamp (mc_scale mc * f) minScale maxScale.
Proof. reflexivity. Qed.

Lemma zoomAt_inRange (f : Q) (p : Point) (mc : Container) :
  inRange (mc_scale (zoomAt f p mc)).
Proof. rewrite zoomAt_scale. apply clamp_inRange. Qed.

(** The wheel listener stores [zoomAt] of the factor chosen from the sign
    of [deltaY], anchored at the pointer. *)
Lemma onWheel_container (dy ox oy : Q) (st : State) (mc : Container) :
  mainContainer (pixiRef st) = Some mc ->
  mainContainer (pixiRef (onWheel dy ox oy st))
  = Some (zoomAt (wheelDelta dy) (mkPoint ox oy) mc).
Proof.
  intros H. unfold onWheel. rewrite H.
  unfold updateViewportBounds. cbn.
  destruct (app (pixiRef st)); [destruct (baseSprite (pixiRef st))|];
    reflexivity.
Qed.

(** C2. Zoom anchor invariance: zooming by any factor [f] about the screen
    point [p] sets the scale to [clamp (scale * f) minScale maxScale] and
    the translation to [p - ((p - translate) / scale) * newScale], and the
    content point under [p] is the same before and after. *)
Theorem zoom_anchor_invariance (p : Point) (mc : Container) (f : Q) :
  inRange (mc_scale mc) ->
  let T0 := transformOf mc in
  let T1 := transformOf (zoomAt f p mc) in
  scale T1 == clamp (scale T0 * f) minScale maxScale /\
  translateX T1 == px p - ((px p - translateX T0) / scale T0) * scale T1 /\
  translateY T1 == py p - ((py p - translateY T0) / scale T0) * scale T1 /\
  point_eq (screenToContent p T0) (screenToContent p T1).
Proof.
  intros Hr T0 T1.
  assert (Hs : 0 < mc_scale mc) by (apply inRange_pos; exact Hr).
  assert (Hn : 0 < mc_scale (zoomAt f p mc))
    by (apply inRange_pos, zoomAt_inRange).
  assert (Hx : mc_x (zoomAt f p mc)
               = px p - ((px p - mc_x mc) / mc_scale mc)
                        * mc_scale (zoomAt f p mc)) by reflexivity.
  assert (Hy : mc_y (zoomAt f p mc)
               = py p - ((py p - mc_y mc) / mc_scale mc)
                        * mc_scale (zoomAt f p mc)) by reflexivity.
  subst T0 T1. unfold point_eq, screenToContent, transformOf.
  cbn [scale translateX translateY px py].
  split; [rewrite zoomAt_scale; reflexivity|].
  rewrite Hx, Hy. clear Hx Hy.
  generalize dependent (mc_scale (zoomAt f p mc)). intros ns Hn.
  repeat split; try reflexivity; field; lra.
Qed.

Lemma zoom_anchor_invariance_witness :
  let p := mkPoint 50 50 in
  let T0 := transformOf sampleContainer in
  let T1 := transformOf (zoomAt (11 # 10) p sampleContainer) in
  scale T1 == clamp (scale T0 * (11 # 10)) minScale maxScale /\
  translateX T1 == px p - ((px p - translateX T0) / scale T0) * scale T1 /\
  translateY T1 == py p - ((py p - translateY T0) / scale T0) * scale T1 /\
  point_eq (screenToContent p T0) (screenToContent p T1).
Proof.
  apply (zoom_anchor_invariance (mkPoint 50 50) sampleContainer (11 # 10)).
  unfold inRange, minScale, maxScale, sampleContainer. cbn. lra.
Defined.

(** Scenario 2 of the specification: from scale 1 at the origin, a notch
    of zoom in at (50, 50) gives scale 1.1 and translation (-5, -5). *)
Example zoom_scenario :
  let mc := zoomAt (wheelDelta (-1)) (mkPoint 50 50) sampleContainer in
  mc_scale mc == 11 # 10 /\ mc_x mc == -5 /\ mc_y mc == -5.
Proof. cbn. repeat split; reflexivity. Qed.

(** ** How the handlers touch the ref *)

Lemma pixiRef_updateViewportBounds (st : State) :
  pixiRef (updateViewportBounds st) = pixiRef st.
Proof.
  unfold updateViewportBounds.
  destruct (app (pixiRef st)), (mainContainer (pixiRef st)),
    (baseSprite (pixiRef st)); reflexivity.
Qed.

Lemma clickPos_updateViewportBounds (st : State) :
  clickPos (updateViewportBounds st) = clickPos st.
Proof.
  unfold updateViewportBounds.
  destruct (app (pixiRef st)), (mainContainer (pixiRef st)),
    (baseSprite (pixiRef st)); reflexivity.
Qed.

(** [updateViewportBounds] writes [viewportBounds] and nothing else. *)
Lemma updateViewportBounds_frame (st : State) :
  isDragging (updateViewportBounds st) = isDragging st /\
  dragStart (updateViewportBounds st) = dragStart st /\
  containerStart (updateViewportBounds st) = containerStart st /\
  zoomLevel (updateViewportBounds st) = zoomLevel st /\
  isLoading (updateViewportBounds st) = isLoading st /\
  console (updateViewportBounds st) = console st.
Proof.
  unfold updateViewportBounds.
  destruct (app (pixiRef st)), (mainContainer (pixiRef st)),
    (baseSprite (pixiRef st)); repeat split; reflexivity.
Qed.

Ltac ref_simpl :=
  repeat rewrite pixiRef_updateViewportBounds;
  cbn [pixiRef setZoomLevel set_mainContainer set_pixiRef set_drag
       setClickPos setIsLoading setViewportBounds log
       app mainContainer baseSprite overlays].

(** The base sprite is fixed by [initPixi].  The screen changes with a
    resize of the container and with nothing else, and no event makes or
    removes the application. *)
Lemma step_geometry (sf : Q) (st : State) (e : Event) :
  baseSprite (pixiRef (step sf st e)) = baseSprite (pixiRef st) /\
  (app (pixiRef (step sf st e)) = None <-> app (pixiRef st) = None) /\
  ((forall w h, e <> Resize w h) ->
   app (pixiRef (step sf st e)) = app (pixiRef st)).
Proof.
  destruct e as [w h| | | | | | | | | |]; cbn [step].
  { unfold onResize. destruct (app (pixiRef st)) as [a|] eqn:Ea.
    - cbn. split; [reflexivity|]. split; [split; discriminate|].
      intros H. exfalso. apply (H w h). reflexivity.
    - rewrite Ea. split; [reflexivity|]. split; [tauto|reflexivity]. }
  all: unfold onWheel, onPointerDown, onPointerMove, endDrag, onClick,
      handleZoomIn, handleZoomOut, handleResetView, handleMiniMapNavigate.
  all: try destruct (clickMeasurement sf global st).
  all: try destruct (negb (isDragging st)).
  all: destruct (mainContainer (pixiRef st)) as [mc|];
    destruct (app (pixiRef st)) as [a|] eqn:Ea;
    destruct (baseSprite (pixiRef st)) as [bs|] eqn:Eb;
    ref_simpl; rewrite ?Ea, ?Eb;
    (split; [reflexivity|]); (split; [tauto|reflexivity]).
Qed.

Lemma step_scale (sf : Q) (st : State) (e : Event) :
  scaleOf (step sf st e)
  = option_map (scaleAfter st e) (scaleOf st).
Proof.
  unfold scaleOf.
  destruct e; cbn [step]; unfold scaleAfter;
    unfold onResize, onWheel, onPointerDown, onPointerMove, endDrag, onClick,
      clickMeasurement, handleZoomIn, handleZoomOut, handleResetView,
      handleMiniMapNavigate.
  all: try destruct (gtb (Math.abs (px global - px (dragStart st))) 5).
  all: try destruct (negb (isDragging st)).
  all: destruct (mainContainer (pixiRef st)) as [mc|] eqn:Em;
    destruct (app (pixiRef st)) as [a|] eqn:Ea;
    destruct (baseSprite (pixiRef st)) as [bs|] eqn:Eb;
    ref_simpl; rewrite ?Em; reflexivity.
Qed.

(** ** The scale of the camera *)

Lemma zoomIn_inRange (s : Q) : inRange s -> inRange (Math.min 10 (s * (13 # 10))).
Proof.
  unfold inRange, minScale, maxScale. intros [Hlo Hhi]. split.
  - apply min_lower; lra.
  - apply min_upper.
Qed.

Lemma zoomOut_inRange (s : Q) :
  inRange s -> inRange (Math.max (1 # 10) (s * (7 # 10))).
Proof.
  unfold inRange, minScale, maxScale. intros [Hlo Hhi]. split.
  - apply max_lower.
  - apply max_upper; lra.
Qed.

Lemma step_scaleInvariant (sf : Q) (st : State) (e : Event) :
  scaleInvariant st -> e <> ResetView -> scaleInvariant (step sf st e).
Proof.
  unfold scaleInvariant. intros Hinv Hfit s.
  rewrite step_scale.
  destruct (scaleOf st) as [s0|]; [|discriminate].
  cbn [option_map]. intros Hs. injection Hs as <-.
  specialize (Hinv s0 eq_refl).
  destruct e; cbn [scaleAfter]; try exact Hinv.
  - apply clamp_inRange.
  - apply zoomIn_inRange, Hinv.
  - apply zoomOut_inRange, Hinv.
  - contradiction Hfit. reflexivity.
Qed.

(** Every path but the fit keeps the scale in range: from a state whose
    scale lies in [minScale, maxScale], wheel zoom, the zoom buttons,
    panning, clicks, minimap navigation and resizes leave it there. *)
Lemma scale_invariant_without_fit (sf : Q) (es : list Event) (st : State) :
  scaleInvariant st -> ~ In ResetView es -> scaleInvariant (run sf st es).
Proof.
  revert st. induction es as [|e es IH]; intros st Hinv Hfit.
  - exact Hinv.
  - cbn [run fold_left]. apply IH.
    + apply step_scaleInvariant; [exact Hinv|].
      intros ->. apply Hfit. left. reflexivity.
    + intros Hin. apply Hfit. right. exact Hin.
Qed.

Ltac qconst := unfold inRange, minScale, maxScale, Qle, Qlt; cbn; lia.

(** C4 at its failing input.  An 800 x 660 screen and a page rendered
    12000 x 9000.  [initPixi] fits the page at scale 0.06, below
    [minScale]: the first state of the viewer is outside the range.  One
    turn of the wheel clamps the scale into the range, as the wheel
    listener does on every turn; fit-to-screen then stores 0.06 again,
    unclamped. *)
Theorem fit_breaks_scale_invariant :
  (exists s, scaleOf (initPixi largePage mount) = Some s /\
             s == 3 # 50 /\ ~ inRange s) /\
  (exists s, scaleOf (run 1 (initPixi largePage mount) [Wheel (-1) 400 300])
             = Some s /\ inRange s) /\
  (exists s, scaleOf (run 1 (initPixi largePage mount)
                        [Wheel (-1) 400 300; ResetView]) = Some s /\
             s == 3 # 50 /\ ~ inRange s).
Proof.
  split; [|split].
  - eexists. split; [vm_compute; reflexivity|]. split; [reflexivity|].
    intros [Hlo _]. vm_compute in Hlo. apply Hlo. reflexivity.
  - eexists. split; [vm_compute; reflexivity|].
    split; vm_compute; discriminate.
  - eexists. split; [vm_compute; reflexivity|]. split; [reflexivity|].
    intros [Hlo _]. vm_compute in Hlo. apply Hlo. reflexivity.
Qed.

(** ** The zoom buttons *)

Lemma handleZoomIn_container (st : State) (mc : Container) :
  mainContainer (pixiRef st) = Some mc ->
  mainContainer (pixiRef (handleZoomIn st))
  = Some (mkContainer (Math.min 10 (mc_scale mc * (13 # 10)))
            (mc_x mc) (mc_y mc)).
Proof. intros H. unfold handleZoomIn. rewrite H. ref_simpl. reflexivity. Qed.

Lemma handleZoomOut_container (st : State) (mc : Container) :
  mainContainer (pixiRef st) = Some mc ->
  mainContainer (pixiRef (handleZoomOut st))
  = Some (mkContainer (Math.max (1 # 10) (mc_scale mc * (7 # 10)))
            (mc_x mc) (mc_y mc)).
Proof. intros H. unfold handleZoomOut. rewrite H. ref_simpl. reflexivity. Qed.

Lemma zoomIn_clamp (s : Q) :
  inRange s ->
  Math.min 10 (s * (13 # 10)) == clamp (s * (13 # 10)) minScale maxScale.
Proof.
  intros Hr. unfold clamp, Math.max. symmetry. apply Q.max_r.
  destruct (zoomIn_inRange s Hr) as [Hlo _]. exact Hlo.
Qed.

Lemma zoomOut_clamp (s : Q) :
  inRange s ->
  Math.max (1 # 10) (s * (7 # 10)) == clamp (s * (7 # 10)) minScale maxScale.
Proof.
  intros [Hlo Hhi]. unfold clamp, Math.max, Math.min, minScale, maxScale in *.
  rewrite (Q.min_r 10 (s * (7 # 10))) by lra. reflexivity.
Qed.

(** C9, as the code has it.  With the scale in range, the zoom buttons
    set it to [scale * 1.3] and [scale * 0.7] clamped to [0.1, 10] and
    keep both translations; so the point that stays put is the content
    origin, drawn at the screen point [(translateX, translateY)].  The
    ref's other fields, the drag variables, the measurement, the loading
    flag and the console are kept. *)
Theorem button_zoom_frame (st : State) (mc : Container) :
  mainContainer (pixiRef st) = Some mc ->
  inRange (mc_scale mc) ->
  exists zin zout,
    mainContainer (pixiRef (handleZoomIn st)) = Some zin /\
    mainContainer (pixiRef (handleZoomOut st)) = Some zout /\
    mc_scale zin == clamp (mc_scale mc * (13 # 10)) minScale maxScale /\
    mc_scale zout == clamp (mc_scale mc * (7 # 10)) minScale maxScale /\
    (mc_x zin = mc_x mc /\ mc_y zin = mc_y mc) /\
    (mc_x zout = mc_x mc /\ mc_y zout = mc_y mc) /\
    point_eq (screenToContent (contentOrigin mc) (transformOf zin))
             (screenToContent (contentOrigin mc) (transformOf mc)) /\
    point_eq (screenToContent (contentOrigin mc) (transformOf zout))
             (screenToContent (contentOrigin mc) (transformOf mc)) /\
    (forall st', st' = handleZoomIn st \/ st' = handleZoomOut st ->
       app (pixiRef st') = app (pixiRef st) /\
       baseSprite (pixiRef st') = baseSprite (pixiRef st) /\
       overlays (pixiRef st') = overlays (pixiRef st) /\
       isDragging st' = isDragging st /\
       dragStart st' = dragStart st /\
       containerStart st' = containerStart st /\
       clickPos st' = clickPos st /\
       isLoading st' = isLoading st /\
       console st' = console st).
Proof.
  intros Hmc Hr.
  exists (mkContainer (Math.min 10 (mc_scale mc * (13 # 10)))
            (mc_x mc) (mc_y mc)),
         (mkContainer (Math.max (1 # 10) (mc_scale mc * (7 # 10)))
            (mc_x mc) (mc_y mc)).
  split; [apply handleZoomIn_container; exact Hmc|].
  split; [apply handleZoomOut_container; exact Hmc|].
  split; [apply zoomIn_clamp; exact Hr|].
  split; [apply zoomOut_clamp; exact Hr|].
  split; [split; reflexivity|].
  split; [split; reflexivity|].
  split; [|split].
  - unfold point_eq, screenToContent, transformOf, contentOrigin.
    cbn [scale translateX translateY px py mc_x mc_y mc_scale].
    unfold Qdiv. split; ring.
  - unfold point_eq, screenToContent, transformOf, contentOrigin.
    cbn [scale translateX translateY px py mc_x mc_y mc_scale].
    unfold Qdiv. split; ring.
  - intros st' [-> | ->]; unfold handleZoomIn, handleZoomOut; rewrite Hmc;
      match goal with
      | |- context [updateViewportBounds ?X] =>
          destruct (updateViewportBounds_frame X)
            as (-> & -> & -> & _ & -> & ->);
          rewrite (clickPos_updateViewportBounds X)
      end;
      ref_simpl; repeat split; reflexivity.
Qed.

Lemma button_zoom_frame_witness :
  exists zin zout,
    mainContainer (pixiRef (handleZoomIn (initPixi smallPage mount)))
    = Some zin /\
    mainContainer (pixiRef (handleZoomOut (initPixi smallPage mount)))
    = Some zout /\
    mc_scale zin == clamp (mc_scale fitted * (13 # 10)) minScale maxScale /\
    mc_scale zout == clamp (mc_scale fitted * (7 # 10)) minScale maxScale.
Proof.
  destruct (button_zoom_frame (initPixi smallPage mount) fitted)
    as (zin & zout & H1 & H2 & H3 & H4 & _).
  - reflexivity.
  - vm_compute. split; discriminate.
  - exists zin, zout. repeat split; assumption.
Defined.

(** After a zoom-in of the freshly fitted page the content point under
    the screen origin has changed: the screen origin is not the anchor. *)
Lemma button_zoom_counterexample :
  exists mc mc',
    mainContainer (pixiRef (initPixi smallPage mount)) = Some mc /\
    mainContainer (pixiRef (handleZoomIn (initPixi smallPage mount)))
    = Some mc' /\
    ~ point_eq (screenToContent (mkPoint 0 0) (transformOf mc'))
               (screenToContent (mkPoint 0 0) (transformOf mc)).
Proof.
  eexists. eexists. split; [reflexivity|]. split; [vm_compute; reflexivity|].
  intros [Hx _]. vm_compute in Hx. discriminate Hx.
Qed.

(** ** Click or drag *)

(** A gesture on an initialised viewer yields one measurement unless the
    pointer has moved more than 5 pixels along x; the movement along y is
    not looked at. *)
Lemma gesture_measurements (sf : Q) (st : State) (mc : Container)
    (a b : Point) :
  mainContainer (pixiRef st) = Some mc ->
  length (measurements sf st (gesture a b))
  = if gtb (Math.abs (px b - px a)) 5 then 0%nat else 1%nat.
Proof.
  intros Hmc. unfold gesture. cbn [measurements step app].
  rewrite !app_nil_r.
  unfold clickMeasurement.
  assert (Hd : dragStart (endDrag (onPointerMove b (onPointerDown a st))) = a).
  { unfold endDrag, onPointerMove, onPointerDown. rewrite Hmc. cbn.
    rewrite Hmc.
    match goal with
    | |- context [updateViewportBounds ?X] =>
        destruct (updateViewportBounds_frame X) as (_ & -> & _)
    end.
    reflexivity. }
  assert (Hc : mainContainer
                 (pixiRef (endDrag (onPointerMove b (onPointerDown a st))))
               <> None).
  { unfold endDrag, onPointerMove, onPointerDown. rewrite Hmc. cbn.
    rewrite Hmc. ref_simpl. discriminate. }
  rewrite Hd.
  destruct (gtb (Math.abs (px b - px a)) 5); [reflexivity|].
  destruct (mainContainer
              (pixiRef (endDrag (onPointerMove b (onPointerDown a st)))));
    [reflexivity|contradiction].
Qed.

(** C3 at its failing input.  Scenario 4 of the specification comes out
    as stated: the gesture from (100,100) to (103,101) yields one
    measurement, the one to (110,100) none.  But a drag straight down,
    from (100,100) to (100,110), is 10 pixels long and still yields a
    measurement, and so does a drag of exactly 5 pixels. *)
Theorem click_drag_vertical :
  let st := initPixi smallPage mount in
  let a := mkPoint 100 100 in
  length (measurements 1 st (gesture a (mkPoint 103 101))) = 1%nat /\
  length (measurements 1 st (gesture a (mkPoint 110 100))) = 0%nat /\
  (5 * 5 <= dist2 a (mkPoint 100 110) /\
   length (measurements 1 st (gesture a (mkPoint 100 110))) = 1%nat) /\
  (5 * 5 <= dist2 a (mkPoint 105 100) /\
   length (measurements 1 st (gesture a (mkPoint 105 100))) = 1%nat).
Proof.
  cbv zeta.
  rewrite !(gesture_measurements 1 (initPixi smallPage mount) fitted)
    by reflexivity.
  repeat split; try reflexivity; vm_compute; discriminate.
Qed.

(** Below 5 pixels of distance the click is always kept. *)
Lemma short_gesture_measured (sf : Q) (st : State) (mc : Container)
    (a b : Point) :
  mainContainer (pixiRef st) = Some mc ->
  dist2 a b < 5 * 5 ->
  length (measurements sf st (gesture a b)) = 1%nat.
Proof.
  intros Hmc Hd. rewrite (gesture_measurements sf st mc a b Hmc).
  destruct (gtb (Math.abs (px b - px a)) 5) eqn:E; [|reflexivity].
  exfalso. apply gtb_true in E. unfold dist2 in Hd.
  unfold Math.abs in E.
  set (dx := px b - px a) in *. set (dy := py b - py a) in *.
  assert (Hdy : 0 <= dy * dy) by nra.
  destruct (Qabs_case dx (fun r => 5 < r -> False)) ; try nra; auto.
Qed.

(** ** The overview rectangle *)

(** What [viewportStyle] does guarantee: the rectangle starts inside the
    box and each extent is between 5% and 100%. *)
Lemma viewportStyle_extent (vb : Bounds) :
  let s := MiniMap.viewportStyle vb in
  0 <= MiniMap.s_left s /\ 0 <= MiniMap.s_top s /\
  (5 <= MiniMap.s_width s /\ MiniMap.s_width s <= 100) /\
  (5 <= MiniMap.s_height s /\ MiniMap.s_height s <= 100).
Proof.
  cbn. repeat split; try apply max_lower;
    apply max_upper; try lra; apply min_upper.
Qed.

(** It stays inside the box whenever the extents it is given are at
    least 5%: then the origin is clamped with the extent that is drawn. *)
Lemma viewportStyle_within (vb : Bounds) :
  5 <= bwidth vb -> 5 <= bheight vb ->
  MiniMap.withinBox (MiniMap.viewportStyle vb).
Proof.
  intros Hw Hh. unfold MiniMap.withinBox, MiniMap.viewportStyle.
  cbn [MiniMap.s_left MiniMap.s_top MiniMap.s_width MiniMap.s_height].
  unfold Math.max, Math.min.
  repeat split; try apply Q.le_max_l.
  - destruct (Q.max_spec 0 (Qmin (100 - bwidth vb) (bx vb))) as [[_ ->]|[_ ->]];
      destruct (Q.max_spec 5 (Qmin 100 (bwidth vb))) as [[_ ->]|[_ ->]];
      destruct (Q.min_spec (100 - bwidth vb) (bx vb)) as [[? E1]|[? E1]];
      destruct (Q.min_spec 100 (bwidth vb)) as [[? E2]|[? E2]];
      rewrite ?E1, ?E2 in *; lra.
  - destruct (Q.max_spec 0 (Qmin (100 - bheight vb) (by_ vb))) as [[_ ->]|[_ ->]];
      destruct (Q.max_spec 5 (Qmin 100 (bheight vb))) as [[_ ->]|[_ ->]];
      destruct (Q.min_spec (100 - bheight vb) (by_ vb)) as [[? E1]|[? E1]];
      destruct (Q.min_spec 100 (bheight vb)) as [[? E2]|[? E2]];
      rewrite ?E1, ?E2 in *; lra.
Qed.

(** C5 at its failing input.  An 800 x 660 screen over a 2000 x 1500 page,
    zoomed in with the button to the largest scale and dragged to the far
    right: the camera is at scale 10 and translation (-19800, 60), the
    visible part is 4% wide and starts at 99%.  The rectangle is drawn 5%
    wide from 96%, so it ends at 101% of the overview box. *)
Theorem minimap_rectangle_overflow :
  let st := run 1 (initPixi widePage mount) zoomedToCorner in
  let vb := viewportBounds st in
  let s := MiniMap.viewportStyle vb in
  (exists mc, mainContainer (pixiRef st) = Some mc /\
              inRange (mc_scale mc) /\
              mc_scale mc == 10 /\ mc_x mc == -19800 /\ mc_y mc == 60) /\
  (bx vb == 99 /\ bwidth vb == 4) /\
  (MiniMap.s_left s == 96 /\ MiniMap.s_width s == 5) /\
  ~ MiniMap.withinBox s.
Proof.
  cbv zeta. split.
  - eexists. split; [vm_compute; reflexivity|].
    split; [split; vm_compute; discriminate|].
    repeat split; vm_compute; reflexivity.
  - split; [split; vm_compute; reflexivity|].
    split; [split; vm_compute; reflexivity|].
    intros (_ & H & _). vm_compute in H. apply H. reflexivity.
Qed.

(** ** Minimap navigation *)

(** Given a point normalised to [0,1] x [0,1], [handleMiniMapNavigate]
    keeps the scale and draws that point of the page at the centre of the
    area below the header. *)
Lemma handleMiniMapNavigate_centres (x y : Q) (st : State)
    (a : Screen) (mc : Container) (bs : Sprite) :
  app (pixiRef st) = Some a ->
  mainContainer (pixiRef st) = Some mc ->
  baseSprite (pixiRef st) = Some bs ->
  exists mc',
    mainContainer (pixiRef (handleMiniMapNavigate x y st)) = Some mc' /\
    mc_scale mc' = mc_scale mc /\
    mc_x mc' + (x * sp_width bs) * mc_scale mc' == width a / 2 /\
    mc_y mc' + (y * sp_height bs) * mc_scale mc'
    == 60 + (height a - 60) / 2.
Proof.
  intros Ha Hmc Hbs. unfold handleMiniMapNavigate. rewrite Ha, Hmc, Hbs.
  ref_simpl. eexists. split; [reflexivity|].
  cbn [mc_scale mc_x mc_y]. split; [reflexivity|]. split; field.
Qed.

(** C6 at its failing input.  A click in the middle of the overview box,
    [q = (1/2, 1/2)], reaches [handleMiniMapNavigate] as [(50, 50)]: the
    MiniMap hands over percentages.  The scale is kept, but the centre of
    the 1000 x 800 page, content point (500, 400), is then drawn at
    screen x = -33012.5 instead of 400, the middle of the 800 pixel wide
    screen. *)
Theorem minimap_click_off_centre :
  let st := initPixi smallPage mount in
  let st' := MiniMap.handleClick (Some overviewBox) 96 72
               handleMiniMapNavigate st in
  exists mc',
    mainContainer (pixiRef st') = Some mc' /\
    mc_scale mc' == mc_scale fitted /\
    mc_x mc' + ((1 # 2) * 1000) * mc_scale mc' == - (66025 # 2) /\
    ~ mc_x mc' + ((1 # 2) * 1000) * mc_scale mc' == 800 / 2.
Proof.
  cbv zeta. eexists. split; [vm_compute; reflexivity|].
  split; [reflexivity|]. split; [reflexivity|].
  intros H. vm_compute in H. discriminate H.
Qed.

(** In the direct-compositing viewer the clicked point is dropped
    altogether. *)
Lemma handleMiniMapClick_ignores_point
    (centerView : ViewportTransform -> ViewportTransform)
    (x y x' y' : Q) (st : ComparisonViewer.State) :
  ComparisonViewer.handleMiniMapClick centerView x y st
  = ComparisonViewer.handleMiniMapClick centerView x' y' st.
Proof. reflexivity. Qed.

(** ** Click measurement *)

(** The WebGL viewer maps a click through the camera and the scaling
    factor, as the specification has it. *)
Lemma pixi_click_original (sf : Q) (p : Point) (st : State)
    (mc : Container) (m : ClickPos) :
  mainContainer (pixiRef st) = Some mc ->
  clickMeasurement sf p st = Some m ->
  original m = contentToOriginal (screenToContent p (transformOf mc)) sf.
Proof.
  intros Hmc. unfold clickMeasurement. rewrite Hmc.
  destruct (gtb _ _); [discriminate|].
  intros H. injection H as <-. reflexivity.
Qed.

(** So does the tiled viewer, from the image point of the library. *)
Lemma tile_click_original (sf : Q) (e : TileViewer.CanvasClick)
    (m : ClickPos) :
  TileViewer.onCanvasClick sf e = Some m ->
  original m = contentToOriginal (TileViewer.imagePoint e) sf.
Proof.
  unfold TileViewer.onCanvasClick. destruct (negb _); [discriminate|].
  intros H. injection H as <-. reflexivity.
Qed.

(** The direct-compositing viewer divides the distance from the drawn
    corner of the canvas by the scaling factor only: the scale of the
    camera does not enter the x coordinate. *)
Lemma direct_click_original_x (T : ViewportTransform) (p : Point)
    (w h s : Q) (st : ComparisonViewer.State) :
  ~ s == 0 ->
  let data := Some (ComparisonViewer.mkData (ComparisonViewer.JsNum s)) in
  let e := ComparisonViewer.clickEvent T p w h in
  option_map (fun m => ix (original m))
    (ComparisonViewer.clickPos (ComparisonViewer.handleClick data e st))
  = Some (Math.round ((px p - (translateX T + scale T * 0)) / s)).
Proof.
  intros Hs. cbn.
  destruct (Qeq_bool s 0) eqn:E.
  - apply Qeq_bool_iff in E. contradiction.
  - reflexivity.
Qed.

(** C1 at its failing input.  Camera at scale 2 with no translation,
    scaling factor 1, click at screen point (100, 220).  The
    specification's mapping gives the original point (50, 110), and the
    WebGL viewer records exactly that.  Both direct-compositing handlers
    record (100, 100): the pixel distance from the drawn corner of the
    canvas, not divided by the scale. *)
Theorem direct_click_ignores_scale :
  let T := mkTransform 2 0 0 in
  let p := mkPoint 100 220 in
  let data := Some (ComparisonViewer.mkData (ComparisonViewer.JsNum 1)) in
  let e := ComparisonViewer.clickEvent T p 1000 800 in
  let gpu := onPointerDown p
               (set_mainContainer (initPixi smallPage mount)
                  (mkContainer 2 0 0)) in
  contentToOriginal (screenToContent p T) 1 = mkIntPoint 50 110 /\
  option_map original (clickMeasurement 1 p gpu) = Some (mkIntPoint 50 110) /\
  option_map original
    (ComparisonViewer.clickPos
       (ComparisonViewer.handleClick data e directStart))
  = Some (mkIntPoint 100 100) /\
  option_map original
    (ComparisonViewer.clickPos
       (ComparisonViewer.handleClickOptimized data e directStart))
  = Some (mkIntPoint 100 100).
Proof. cbv zeta. repeat split; vm_compute; reflexivity. Qed.

(** C10.  In both direct-compositing viewers a click with a missing,
    null, NaN or zero scaling factor returns before anything is computed:
    the state, and with it the displayed measurement, is what it was. *)
Theorem falsy_scaling_factor_no_measurement
    (data : option ComparisonViewer.SessionData)
    (e : ComparisonViewer.MouseEvent) (st : ComparisonViewer.State) :
  ComparisonViewer.truthy (ComparisonViewer.scalingFactorOf data) = false ->
  ComparisonViewer.handleClick data e st = st /\
  ComparisonViewer.handleClickOptimized data e st = st.
Proof.
  unfold ComparisonViewer.handleClick, ComparisonViewer.handleClickOptimized.
  destruct (ComparisonViewer.scalingFactorOf data) as [| | |q];
    cbn [ComparisonViewer.truthy]; intros H; try (split; reflexivity).
  apply negb_false_iff in H. rewrite H. split; reflexivity.
Qed.

Lemma falsy_scaling_factor_no_measurement_witness :
  let data := Some (ComparisonViewer.mkData (ComparisonViewer.JsNum 0)) in
  let e := ComparisonViewer.clickEvent (mkTransform 1 0 0) (mkPoint 100 220)
             1000 800 in
  ComparisonViewer.handleClick data e measuredBefore = measuredBefore /\
  ComparisonViewer.handleClickOptimized data e measuredBefore
  = measuredBefore.
Proof.
  apply (falsy_scaling_factor_no_measurement
           (Some (ComparisonViewer.mkData (ComparisonViewer.JsNum 0)))).
  reflexivity.
Defined.

(** ** Initialisation and page change *)

Lemma cleanup_ref (st : State) :
  wellFormed st -> pixiRef (cleanup st) = emptyRef.
Proof.
  unfold wellFormed, cleanup. intros H.
  destruct (app (pixiRef st)); [reflexivity|]. apply H. reflexivity.
Qed.

Lemma cleanup_frame (st : State) :
  clickPos (cleanup st) = clickPos st /\
  zoomLevel (cleanup st) = zoomLevel st /\
  viewportBounds (cleanup st) = viewportBounds st /\
  console (cleanup st) = console st.
Proof.
  unfold cleanup. destruct (app (pixiRef st)); repeat split; reflexivity.
Qed.

Lemma cleanup_idempotent (st : State) : cleanup (cleanup st) = cleanup st.
Proof.
  unfold cleanup. destruct (app (pixiRef st)) eqn:E; cbn; [reflexivity|].
  rewrite E. reflexivity.
Qed.

(** [initPixi] begins with the very cleanup the effect returns. *)
Lemma initPixi_cleanup (o : Outcome) (st : State) :
  initPixi o (cleanup st) = initPixi o st.
Proof.
  unfold initPixi. fold (cleanup st). fold (cleanup (cleanup st)).
  rewrite cleanup_idempotent. reflexivity.
Qed.

Lemma loadOverlays_spec (o : Outcome) (ovs : Overlays) (key : LayerKey) :
  if loaded o key
  then overlayOf key (fst (loadOverlays o ovs))
       = Some (mkOverlay (zIndexOf key) (6 # 10) true)
       /\ ~ In (Warn key) (snd (loadOverlays o ovs))
  else overlayOf key (fst (loadOverlays o ovs)) = overlayOf key ovs
       /\ In (Warn key) (snd (loadOverlays o ovs)).
Proof.
  unfold loadOverlays, loadOverlay, loaded.
  destruct o as [ai cm bl r g b]. cbn [redLoad greenLoad blueLoad].
  destruct r, g, b, key; cbn; split; try reflexivity; intuition congruence.
Qed.


(** The state [initPixi] reaches when the application and the base
    texture load. *)
Lemma initPixi_loaded (o : Outcome) (st : State) (a : Screen) (bs : Sprite) :
  appInit o = Some a -> containerMounted o = true -> baseLoad o = Some bs ->
  pixiRef (initPixi o st)
  = mkPixiRef (Some a) (Some (fitContainer a bs)) (Some bs)
      (fst (loadOverlays o (overlays (pixiRef (cleanup st))))) /\
  isDragging (initPixi o st) = false /\
  clickPos (initPixi o st) = clickPos st /\
  isLoading (initPixi o st) = false /\
  console (initPixi o st)
  = console st ++ snd (loadOverlays o (overlays (pixiRef (cleanup st)))).
Proof.
  intros Ha Hm Hb. unfold initPixi. fold (cleanup st).
  rewrite Ha, Hm, Hb. cbn [negb].
  destruct (cleanup_frame st) as (Hc & _ & _ & Hl).
  cbn [pixiRef setIsLoading].
  destruct (loadOverlays o (overlays (pixiRef (cleanup st)))) as [ovs w].
  match goal with
  | |- context [updateViewportBounds ?X] =>
      destruct (updateViewportBounds_frame X) as (-> & _ & _ & _ & -> & ->);
      rewrite (clickPos_updateViewportBounds X)
  end.
  ref_simpl. cbn. rewrite Hc, Hl. repeat split; reflexivity.
Qed.


(** Without a scene no handler does anything to the ref or to the
    measurement. *)
Lemma step_without_scene (sf : Q) (st : State) (e : Event) :
  pixiRef st = emptyRef ->
  pixiRef (step sf st e) = emptyRef /\ clickPos (step sf st e) = clickPos st.
Proof.
  intros H.
  destruct e; cbn [step];
    unfold onResize, onWheel, onPointerDown, onPointerMove, endDrag, onClick,
      clickMeasurement, handleZoomIn, handleZoomOut, handleResetView,
      handleMiniMapNavigate; rewrite ?H; cbn;
    try destruct (gtb _ _); try destruct (negb _); rewrite ?H; cbn;
    split; solve [reflexivity | exact H].
Qed.

(** [wellFormed] holds on mount and is kept by [initPixi] and by every
    event. *)
Lemma wellFormed_mount : wellFormed mount.
Proof. intros _. reflexivity. Qed.

Lemma wellFormed_initPixi (o : Outcome) (st : State) :
  wellFormed st -> wellFormed (initPixi o st).
Proof.
  intros Hwf. unfold wellFormed, initPixi. fold (cleanup st).
  pose proof (cleanup_ref st Hwf) as Hc.
  destruct (appInit o) as [a|]; [|intros _; exact Hc].
  destruct (containerMounted o); cbn [negb]; [|intros _; exact Hc].
  destruct (baseLoad o) as [bs|]; [|intros _; exact Hc].
  cbn [pixiRef setIsLoading].
  destruct (loadOverlays o (overlays (pixiRef (cleanup st)))) as [ovs w].
  ref_simpl. discriminate.
Qed.

Lemma wellFormed_step (sf : Q) (st : State) (e : Event) :
  wellFormed st -> wellFormed (step sf st e).
Proof.
  intros Hwf. unfold wellFormed.
  destruct (step_geometry sf st e) as (_ & Ha & _). intros Hn.
  apply step_without_scene. apply Hwf. apply Ha. exact Hn.
Qed.

(** C7, as the code has it.  A page change whose application and base
    texture load puts the camera of the WebGL viewer at the fit-to-screen
    transform of the new page and ends any drag; the measurement is React
    state of a component that stays mounted, and is the one it was.  The
    direct-compositing viewer resets its two image flags: measurement and
    camera are the ones they were. *)
Theorem page_change_keeps_measurement (o : Outcome) (st : State)
    (a : Screen) (bs : Sprite) :
  appInit o = Some a -> containerMounted o = true -> baseLoad o = Some bs ->
  mainContainer (pixiRef (pageChange o st)) = Some (fitContainer a bs) /\
  isDragging (pageChange o st) = false /\
  clickPos (pageChange o st) = clickPos st /\
  (forall d : ComparisonViewer.State,
     ComparisonViewer.clickPos (ComparisonViewer.pageChange d)
     = ComparisonViewer.clickPos d /\
     ComparisonViewer.transform (ComparisonViewer.pageChange d)
     = ComparisonViewer.transform d /\
     ComparisonViewer.imageLoaded (ComparisonViewer.pageChange d) = false /\
     ComparisonViewer.imageError (ComparisonViewer.pageChange d) = None).
Proof.
  intros Ha Hm Hb. unfold pageChange. rewrite initPixi_cleanup.
  destruct (initPixi_loaded o st a bs Ha Hm Hb) as (Hr & Hd & Hc & _).
  rewrite Hr, Hd, Hc. repeat split; reflexivity.
Qed.

Lemma page_change_keeps_measurement_witness :
  mainContainer (pixiRef (pageChange largePage measuredPage))
  = Some (fitContainer (mkScreen 800 660) (mkSprite 12000 9000)) /\
  clickPos (pageChange largePage measuredPage) = clickPos measuredPage.
Proof.
  destruct (page_change_keeps_measurement largePage measuredPage
              (mkScreen 800 660) (mkSprite 12000 9000))
    as (H1 & _ & H3 & _); try reflexivity.
  split; assumption.
Defined.

(** After the change to another page the measurement of the previous
    page is still the one on display. *)
Lemma page_change_counterexample :
  clickPos (pageChange largePage measuredPage)
  = Some (mkClickPos (mkIntPoint 100 100) (mkIntPoint 56 15)) /\
  clickPos (pageChange largePage measuredPage) <> None.
Proof. split; [vm_compute; reflexivity|vm_compute; discriminate]. Qed.




(** * Further properties of the viewers *)

(** ** Runs of events *)

Lemma run_app (sf : Q) (st : State) (es1 es2 : list Event) :
  run sf st (es1 ++ es2) = run sf (run sf st es1) es2.
Proof. unfold run. apply fold_left_app. Qed.

Lemma run_geometry (sf : Q) (es : list Event) (st : State) :
  baseSprite (pixiRef (run sf st es)) = baseSprite (pixiRef st) /\
  (app (pixiRef (run sf st es)) = None <-> app (pixiRef st) = None) /\
  ((forall w h, ~ In (Resize w h) es) ->
   app (pixiRef (run sf st es)) = app (pixiRef st)).
Proof.
  revert st. induction es as [|e es IH]; intros st.
  - split; [reflexivity|]. split; [tauto|reflexivity].
  - cbn [run fold_left]. fold (run sf (step sf st e) es).
    destruct (IH (step sf st e)) as (Hb & Hn & Ha).
    destruct (step_geometry sf st e) as (Hb' & Hn' & Ha').
    split; [rewrite Hb; exact Hb'|]. split; [tauto|].
    intros Hno. rewrite Ha.
    + apply Ha'. intros w h ->. apply (Hno w h). left. reflexivity.
    + intros w h Hin. apply (Hno w h). right. exact Hin.
Qed.

Lemma scaleOf_container (st : State) (s : Q) :
  scaleOf st = Some s ->
  exists mc, mainContainer (pixiRef st) = Some mc /\ mc_scale mc = s.
Proof.
  unfold scaleOf. destruct (mainContainer (pixiRef st)) as [mc|];
    [|discriminate].
  cbn. intros H. injection H as <-. exists mc. split; reflexivity.
Qed.

(** A scene, once there, stays: no event removes the container. *)
Lemma run_container (sf : Q) (es : list Event) (st : State) (mc : Container) :
  mainContainer (pixiRef st) = Some mc ->
  exists mc', mainContainer (pixiRef (run sf st es)) = Some mc'.
Proof.
  revert st mc. induction es as [|e es IH]; intros st mc Hmc.
  - exists mc. exact Hmc.
  - cbn [run fold_left]. fold (run sf (step sf st e) es).
    pose proof (step_scale sf st e) as Hs.
    unfold scaleOf at 2 in Hs. rewrite Hmc in Hs. cbn [option_map] in Hs.
    destruct (scaleOf_container _ _ Hs) as (mc1 & Hmc1 & _).
    apply (IH _ mc1 Hmc1).
Qed.

(** ** Wheel zoom and the range of the scale *)

(** X1.  Whatever the scale was, and be it outside the range after a
    fit, one turn of the wheel puts it into [0.1, 10]. *)
Theorem wheel_restores_range (dy ox oy : Q) (st : State) (mc : Container) :
  mainContainer (pixiRef st) = Some mc ->
  exists s, scaleOf (onWheel dy ox oy st) = Some s /\ inRange s.
Proof.
  intros Hmc. unfold scaleOf.
  rewrite (onWheel_container dy ox oy st mc Hmc). cbn [option_map].
  eexists. split; [reflexivity|]. apply zoomAt_inRange.
Qed.

Lemma wheel_restores_range_witness :
  exists s, scaleOf (onWheel 1 400 300 (initPixi largePage mount)) = Some s /\
            inRange s.
Proof.
  apply (wheel_restores_range 1 400 300 (initPixi largePage mount)
           (fitContainer (mkScreen 800 660) (mkSprite 12000 9000))).
  reflexivity.
Defined.

(** X2.  The buttons clamp on one side only.  From a scale below 0.1 the
    zoom-out button sets the scale to 0.1, which is larger: it zooms in.
    From a scale above 10 the zoom-in button sets it to 10: it zooms
    out. *)
Theorem buttons_outside_range (st : State) (mc : Container) :
  mainContainer (pixiRef st) = Some mc ->
  (mc_scale mc < 1 # 10 ->
   exists s, scaleOf (handleZoomOut st) = Some s /\ s == 1 # 10 /\
             mc_scale mc < s) /\
  (10 < mc_scale mc ->
   exists s, scaleOf (handleZoomIn st) = Some s /\ s == 10 /\
             s < mc_scale mc).
Proof.
  intros Hmc. split; intros Hs.
  - unfold scaleOf. rewrite (handleZoomOut_container st mc Hmc).
    cbn [option_map mc_scale]. eexists. split; [reflexivity|].
    assert (E : Math.max (1 # 10) (mc_scale mc * (7 # 10)) == 1 # 10).
    { unfold Math.max. apply Q.max_l. lra. }
    split; [exact E|]. rewrite E. exact Hs.
  - unfold scaleOf. rewrite (handleZoomIn_container st mc Hmc).
    cbn [option_map mc_scale]. eexists. split; [reflexivity|].
    assert (E : Math.min 10 (mc_scale mc * (13 # 10)) == 10).
    { unfold Math.min. apply Q.min_l. lra. }
    split; [exact E|]. rewrite E. exact Hs.
Qed.

Lemma buttons_outside_range_witness :
  exists s, scaleOf (handleZoomOut (initPixi largePage mount)) = Some s /\
            s == 1 # 10 /\ (3 # 50) < s.
Proof.
  destruct (buttons_outside_range (initPixi largePage mount)
              (fitContainer (mkScreen 800 660) (mkSprite 12000 9000)))
    as [H _]; [reflexivity|].
  destruct H as (s & H1 & H2 & H3); [vm_compute; reflexivity|].
  exists s. split; [exact H1|]. split; [exact H2|].
  rewrite H2. reflexivity.
Defined.

Lemma zoomAt_anchor (f : Q) (p : Point) (mc : Container) :
  0 < mc_scale mc ->
  point_eq (screenToContent p (transformOf (zoomAt f p mc)))
           (screenToContent p (transformOf mc)).
Proof.
  intros Hs.
  assert (Hn : 0 < mc_scale (zoomAt f p mc))
    by (apply inRange_pos, zoomAt_inRange).
  assert (Hx : mc_x (zoomAt f p mc)
               = px p - ((px p - mc_x mc) / mc_scale mc)
                        * mc_scale (zoomAt f p mc)) by reflexivity.
  assert (Hy : mc_y (zoomAt f p mc)
               = py p - ((py p - mc_y mc) / mc_scale mc)
                        * mc_scale (zoomAt f p mc)) by reflexivity.
  unfold point_eq, screenToContent, transformOf.
  cbn [scale translateX translateY px py].
  rewrite Hx, Hy. clear Hx Hy.
  generalize dependent (mc_scale (zoomAt f p mc)). intros ns Hn.
  split; field; lra.
Qed.

(** X3.  Any number of wheel turns at one pointer position, in either
    direction and through the clamps, leave the content point under the
    pointer the same; the scale ends in range. *)
Theorem wheel_turns_keep_anchor (sf ox oy : Q) (dys : list Q) (st : State)
    (mc : Container) :
  mainContainer (pixiRef st) = Some mc ->
  0 < mc_scale mc ->
  exists mc',
    mainContainer
      (pixiRef (run sf st (map (fun dy => Wheel dy ox oy) dys))) = Some mc' /\
    0 < mc_scale mc' /\
    point_eq (screenToContent (mkPoint ox oy) (transformOf mc'))
             (screenToContent (mkPoint ox oy) (transformOf mc)).
Proof.
  revert st mc. induction dys as [|dy dys IH]; intros st mc Hmc Hs.
  - exists mc. split; [exact Hmc|]. split; [exact Hs|].
    split; reflexivity.
  - cbn [map run fold_left].
    fold (run sf (step sf st (Wheel dy ox oy))
            (map (fun dy => Wheel dy ox oy) dys)).
    cbn [step].
    pose proof (onWheel_container dy ox oy st mc Hmc) as H1.
    destruct (IH _ _ H1) as (mc' & Hc & Hp & [Hx Hy]).
    { apply inRange_pos, zoomAt_inRange. }
    exists mc'. split; [exact Hc|]. split; [exact Hp|].
    destruct (zoomAt_anchor (wheelDelta dy) (mkPoint ox oy) mc Hs)
      as [Hx' Hy'].
    split; [rewrite Hx; exact Hx'|rewrite Hy; exact Hy'].
Qed.

Lemma wheel_turns_keep_anchor_witness :
  exists mc',
    mainContainer
      (pixiRef (run 1 (initPixi smallPage mount)
                  (map (fun dy => Wheel dy 300 200) [-1; -1; 1; -1; 1; 1])))
    = Some mc' /\
    0 < mc_scale mc' /\
    point_eq (screenToContent (mkPoint 300 200) (transformOf mc'))
             (screenToContent (mkPoint 300 200) (transformOf fitted)).
Proof.
  apply (wheel_turns_keep_anchor 1 300 200 [-1; -1; 1; -1; 1; 1]
           (initPixi smallPage mount) fitted).
  - reflexivity.
  - vm_compute. reflexivity.
Defined.

(** ** Dragging *)

(** While a drag lasts, a move puts the container at its position of the
    pointer-down plus the pointer's total displacement, and keeps the
    drag variables. *)
Lemma onPointerMove_dragging (g : Point) (st : State) (mc : Container) :
  isDragging st = true ->
  mainContainer (pixiRef st) = Some mc ->
  mainContainer (pixiRef (onPointerMove g st))
  = Some (mkContainer (mc_scale mc)
            (px (containerStart st) + (px g - px (dragStart st)))
            (py (containerStart st) + (py g - py (dragStart st)))) /\
  isDragging (onPointerMove g st) = true /\
  dragStart (onPointerMove g st) = dragStart st /\
  containerStart (onPointerMove g st) = containerStart st.
Proof.
  intros Hd Hmc. unfold onPointerMove. rewrite Hd, Hmc. cbn [negb].
  match goal with
  | |- context [updateViewportBounds ?X] =>
      destruct (updateViewportBounds_frame X) as (-> & -> & -> & _)
  end.
  ref_simpl. unfold set_mainContainer, set_pixiRef.
  cbn [isDragging dragStart containerStart].
  repeat split; try reflexivity. exact Hd.
Qed.

Lemma drag_moves (sf : Q) (ms : list Point) (st : State) (mc : Container) :
  isDragging st = true ->
  mainContainer (pixiRef st) = Some mc ->
  exists mc',
    mainContainer (pixiRef (run sf st (map PointerMove ms))) = Some mc' /\
    mc_scale mc' = mc_scale mc /\
    isDragging (run sf st (map PointerMove ms)) = true /\
    dragStart (run sf st (map PointerMove ms)) = dragStart st /\
    containerStart (run sf st (map PointerMove ms)) = containerStart st.
Proof.
  revert st mc. induction ms as [|m ms IH]; intros st mc Hd Hmc.
  - exists mc. repeat split; assumption.
  - cbn [map run fold_left].
    fold (run sf (step sf st (PointerMove m)) (map PointerMove ms)).
    cbn [step].
    destruct (onPointerMove_dragging m st mc Hd Hmc) as (H1 & H2 & H3 & H4).
    destruct (IH _ _ H2 H1) as (mc' & Hc & Hs & Hd' & Ho & Hcs).
    exists mc'. rewrite Hd', Ho, Hcs, H3, H4.
    repeat split; assumption.
Qed.

(** X4.  Panning is relative to the pointer-down: after a pointer-down at
    [a], any moves in between and a move to [b], the container sits at
    its old position plus [b - a], with its old scale, however the
    pointer got there; and the content point that was under the pointer
    at [a] is the one under it at [b]. *)
Theorem drag_follows_pointer (sf : Q) (a b : Point) (ms : list Point)
    (st : State) (mc : Container) :
  mainContainer (pixiRef st) = Some mc ->
  let st' := run sf st (PointerDown a :: map PointerMove ms
                        ++ [PointerMove b]) in
  mainContainer (pixiRef st')
  = Some (mkContainer (mc_scale mc) (mc_x mc + (px b - px a))
            (mc_y mc + (py b - py a))) /\
  forall mc', mainContainer (pixiRef st') = Some mc' ->
    point_eq (screenToContent b (transformOf mc'))
             (screenToContent a (transformOf mc)).
Proof.
  intros Hmc st'.
  assert (H : mainContainer (pixiRef st')
              = Some (mkContainer (mc_scale mc) (mc_x mc + (px b - px a))
                        (mc_y mc + (py b - py a)))).
  { subst st'. cbn [run fold_left].
    fold (run sf (step sf st (PointerDown a))
            (map PointerMove ms ++ [PointerMove b])).
    rewrite run_app. cbn [step].
    assert (Hd : isDragging (onPointerDown a st) = true)
      by (unfold onPointerDown; rewrite Hmc; reflexivity).
    assert (Hc : mainContainer (pixiRef (onPointerDown a st)) = Some mc)
      by (unfold onPointerDown; rewrite Hmc; exact Hmc).
    destruct (drag_moves sf ms _ _ Hd Hc) as (mc1 & H1 & H2 & H3 & H4 & H5).
    cbn [run fold_left step].
    destruct (onPointerMove_dragging b _ _ H3 H1) as (H6 & _).
    rewrite H6, H2, H4, H5.
    unfold onPointerDown. rewrite Hmc. reflexivity. }
  split; [exact H|].
  intros mc' Hmc'. rewrite H in Hmc'. injection Hmc' as <-.
  unfold point_eq, screenToContent, transformOf.
  cbn [scale translateX translateY px py mc_scale mc_x mc_y].
  unfold Qdiv. split; ring.
Qed.

Lemma drag_follows_pointer_witness :
  mainContainer
    (pixiRef (run 1 (initPixi smallPage mount)
                (PointerDown (mkPoint 300 200)
                 :: map PointerMove [mkPoint 310 180; mkPoint 500 90]
                 ++ [PointerMove (mkPoint 350 260)])))
  = Some (mkContainer (mc_scale fitted) (mc_x fitted + (350 - 300))
            (mc_y fitted + (260 - 200))).
Proof.
  apply (drag_follows_pointer 1 (mkPoint 300 200) (mkPoint 350 260)
           [mkPoint 310 180; mkPoint 500 90] (initPixi smallPage mount)
           fitted).
  reflexivity.
Defined.

(** X5.  Once the pointer is released, pointer moves change nothing: not
    the camera, not the overview rectangle, not the measurement. *)
Theorem moves_after_release (sf : Q) (ms : list Point) (st : State) :
  run sf (endDrag st) (map PointerMove ms) = endDrag st.
Proof.
  induction ms as [|m ms IH]; [reflexivity|].
  cbn [map run fold_left]. cbn [step].
  assert (E : onPointerMove m (endDrag st) = endDrag st) by reflexivity.
  rewrite E. exact IH.
Qed.

(** ** Fit to screen *)

Lemma min_scaled (a b c : Q) :
  0 < c -> Math.min a b * c <= a * c /\ Math.min a b * c <= b * c.
Proof.
  intros Hc. split; apply Qmult_le_compat_r; try lra.
  - apply Q.le_min_l.
  - apply Q.le_min_r.
Qed.

(** X6.  With a screen taller than the header and a page of positive size,
    the fitted page is drawn with a positive scale, at most 90% of the
    width of the screen and of the height below the 60 pixel header,
    centred in that area, and so wholly on the screen. *)
Theorem fit_is_centred_and_inside (a : Screen) (bs : Sprite) :
  0 < width a -> 60 < height a -> 0 < sp_width bs -> 0 < sp_height bs ->
  let mc := fitContainer a bs in
  0 < mc_scale mc /\
  sp_width bs * mc_scale mc <= (9 # 10) * width a /\
  sp_height bs * mc_scale mc <= (9 # 10) * (height a - 60) /\
  mc_x mc + sp_width bs * mc_scale mc / 2 == width a / 2 /\
  mc_y mc + sp_height bs * mc_scale mc / 2 == 60 + (height a - 60) / 2 /\
  (0 <= mc_x mc /\ mc_x mc + sp_width bs * mc_scale mc <= width a) /\
  (60 <= mc_y mc /\ mc_y mc + sp_height bs * mc_scale mc <= height a).
Proof.
  intros Hw Hh Hbw Hbh mc.
  assert (Hs : mc_scale mc
               = Math.min (width a / sp_width bs)
                   ((height a - 60) / sp_height bs) * (9 # 10))
    by reflexivity.
  assert (Hx : mc_x mc = (width a - sp_width bs * mc_scale mc) / 2)
    by reflexivity.
  assert (Hy : mc_y mc
               = 60 + (height a - 60 - sp_height bs * mc_scale mc) / 2)
    by reflexivity.
  set (m := Math.min (width a / sp_width bs)
              ((height a - 60) / sp_height bs)) in *.
  assert (Hm : 0 < m).
  { unfold m, Math.min.
    destruct (Q.min_spec (width a / sp_width bs)
                ((height a - 60) / sp_height bs)) as [[_ ->]|[_ ->]].
    - apply Qlt_shift_div_l; lra.
    - apply Qlt_shift_div_l; lra. }
  assert (Hmw : sp_width bs * m <= width a).
  { destruct (min_scaled (width a / sp_width bs)
                ((height a - 60) / sp_height bs) (sp_width bs) Hbw)
      as [H _].
    fold m in H.
    assert (E : width a / sp_width bs * sp_width bs == width a)
      by (field; lra).
    rewrite E in H. lra. }
  assert (Hmh : sp_height bs * m <= height a - 60).
  { destruct (min_scaled (width a / sp_width bs)
                ((height a - 60) / sp_height bs) (sp_height bs) Hbh)
      as [_ H].
    fold m in H.
    assert (E : (height a - 60) / sp_height bs * sp_height bs
                == height a - 60) by (field; lra).
    rewrite E in H. lra. }
  rewrite Hx, Hy. clear Hx Hy.
  rewrite Hs. clear Hs.
  assert (Ew : sp_width bs * (m * (9 # 10)) == (9 # 10) * (sp_width bs * m))
    by ring.
  assert (Eh : sp_height bs * (m * (9 # 10)) == (9 # 10) * (sp_height bs * m))
    by ring.
  rewrite !Ew, !Eh.
  generalize dependent (sp_width bs * m). intros u Hu _.
  generalize dependent (sp_height bs * m). intros v Hv _.
  repeat split; try lra; try (field; lra);
    unfold Qdiv; change (/ 2) with (1 # 2); lra.
Qed.

Lemma fit_is_centred_and_inside_witness :
  0 < mc_scale fitted /\
  1000 * mc_scale fitted <= (9 # 10) * 800 /\
  800 * mc_scale fitted <= (9 # 10) * (660 - 60).
Proof.
  destruct (fit_is_centred_and_inside (mkScreen 800 660) (mkSprite 1000 800))
    as (H1 & H2 & H3 & _); try reflexivity.
  split; [exact H1|]. split; [exact H2|exact H3].
Defined.

(** ** Reset and the derived display state *)

Lemma handleResetView_container (st : State) (a : Screen) (mc : Container)
    (bs : Sprite) :
  app (pixiRef st) = Some a ->
  mainContainer (pixiRef st) = Some mc ->
  baseSprite (pixiRef st) = Some bs ->
  mainContainer (pixiRef (handleResetView st)) = Some (fitContainer a bs).
Proof.
  intros Ha Hmc Hbs. unfold handleResetView. rewrite Ha, Hmc, Hbs.
  ref_simpl. reflexivity.
Qed.

(** X7.  Whatever has been done to the view of a page since it was
    loaded, the fit-to-screen button fits the page to the screen as it is
    at that moment.  While the container has not been resized since the
    page was loaded, that is the transform the page was first shown
    with. *)
Theorem reset_restores_first_view (sf : Q) (o : Outcome) (st : State)
    (a : Screen) (bs : Sprite) (es : list Event) :
  appInit o = Some a -> containerMounted o = true -> baseLoad o = Some bs ->
  (exists a',
     app (pixiRef (run sf (initPixi o st) es)) = Some a' /\
     mainContainer (pixiRef (handleResetView (run sf (initPixi o st) es)))
     = Some (fitContainer a' bs)) /\
  ((forall w h, ~ In (Resize w h) es) ->
   mainContainer (pixiRef (handleResetView (run sf (initPixi o st) es)))
   = mainContainer (pixiRef (initPixi o st))) /\
  mainContainer (pixiRef (initPixi o st)) = Some (fitContainer a bs).
Proof.
  intros Ha Hm Hb.
  destruct (initPixi_loaded o st a bs Ha Hm Hb) as (Hr & _).
  assert (Hc : mainContainer (pixiRef (initPixi o st))
               = Some (fitContainer a bs)) by (rewrite Hr; reflexivity).
  destruct (run_geometry sf es (initPixi o st)) as (Hgb & Hgn & Hga).
  destruct (run_container sf es _ _ Hc) as (mc' & Hmc').
  assert (Hbs : baseSprite (pixiRef (run sf (initPixi o st) es)) = Some bs)
    by (rewrite Hgb, Hr; reflexivity).
  split; [|split; [|exact Hc]].
  - destruct (app (pixiRef (run sf (initPixi o st) es))) as [a'|] eqn:Ea.
    + exists a'. split; [reflexivity|].
      apply (handleResetView_container _ a' mc' bs); assumption.
    + exfalso. assert (Hn : app (pixiRef (initPixi o st)) = None)
        by (apply Hgn; reflexivity).
      rewrite Hr in Hn. discriminate Hn.
  - intros Hno. rewrite Hc.
    apply (handleResetView_container _ a mc' bs); [|exact Hmc'|exact Hbs].
    rewrite (Hga Hno), Hr. reflexivity.
Qed.

Lemma reset_restores_first_view_witness :
  mainContainer
    (pixiRef (handleResetView (run 1 (initPixi smallPage mount) someEvents)))
  = mainContainer (pixiRef (initPixi smallPage mount)).
Proof.
  destruct (reset_restores_first_view 1 smallPage mount (mkScreen 800 660)
              (mkSprite 1000 800) someEvents) as (_ & H & _);
    [reflexivity | reflexivity | reflexivity | ].
  apply H. intros w h Hin. cbn in Hin.
  repeat (destruct Hin as [Hin|Hin]; [discriminate Hin|]). exact Hin.
Defined.

(** A resize in between shows in the result: the page is fitted to the
    new screen, not to the one it was loaded on. *)
Example reset_after_resize :
  mainContainer
    (pixiRef (handleResetView
                (run 1 (initPixi smallPage mount) [Resize 1024 768])))
  = Some (fitContainer (mkScreen 1024 768) (mkSprite 1000 800)) /\
  ~ mc_scale (fitContainer (mkScreen 1024 768) (mkSprite 1000 800))
    == mc_scale fitted.
Proof.
  split; [reflexivity|]. intros H. vm_compute in H. discriminate H.
Qed.

Lemma updateViewportBounds_scene (st : State) (a : Screen) (mc : Container)
    (bs : Sprite) :
  app (pixiRef st) = Some a ->
  mainContainer (pixiRef st) = Some mc ->
  baseSprite (pixiRef st) = Some bs ->
  updateViewportBounds st = setViewportBounds (boundsOf a mc bs) st.
Proof.
  intros Ha Hmc Hbs. unfold updateViewportBounds.
  rewrite Ha, Hmc, Hbs. reflexivity.
Qed.

Ltac sync_scene :=
  erewrite updateViewportBounds_scene
    by (ref_simpl; try eassumption; reflexivity);
  unfold inSync, setViewportBounds, setZoomLevel, set_mainContainer,
    set_pixiRef;
  cbn [pixiRef app mainContainer baseSprite zoomLevel viewportBounds];
  repeat (split; [assumption|]); eexists; split; [reflexivity|];
  split; [try reflexivity; assumption|reflexivity].

Lemma step_inSync (sf : Q) (a : Screen) (bs : Sprite) (st : State)
    (e : Event) :
  (forall w h, e <> Resize w h) ->
  inSync a bs st -> inSync a bs (step sf st e).
Proof.
  intros Hno Hin. pose proof Hin as (Ha & Hbs & mc & Hmc & Hz & Hv).
  destruct e as [w h| | | | | | | | | |]; cbn [step].
  - exfalso. apply (Hno w h). reflexivity.
  - unfold onWheel. rewrite Hmc. sync_scene.
  - unfold onPointerDown. rewrite Hmc.
    unfold inSync, set_drag.
    cbn [pixiRef zoomLevel viewportBounds].
    repeat (split; [assumption|]). exists mc. repeat split; assumption.
  - unfold onPointerMove. destruct (negb (isDragging st)); [exact Hin|].
    rewrite Hmc. sync_scene.
  - unfold endDrag, inSync, set_drag.
    cbn [pixiRef zoomLevel viewportBounds].
    repeat (split; [assumption|]). exists mc. repeat split; assumption.
  - unfold endDrag, inSync, set_drag.
    cbn [pixiRef zoomLevel viewportBounds].
    repeat (split; [assumption|]). exists mc. repeat split; assumption.
  - unfold onClick. destruct (clickMeasurement sf global st); [|exact Hin].
    unfold inSync, setClickPos.
    cbn [pixiRef zoomLevel viewportBounds].
    repeat (split; [assumption|]). exists mc. repeat split; assumption.
  - unfold handleZoomIn. rewrite Hmc. sync_scene.
  - unfold handleZoomOut. rewrite Hmc. sync_scene.
  - unfold handleResetView. rewrite Ha, Hmc, Hbs. sync_scene.
  - unfold handleMiniMapNavigate. rewrite Ha, Hmc, Hbs. sync_scene.
Qed.

Lemma initPixi_inSync (o : Outcome) (st : State) (a : Screen) (bs : Sprite) :
  appInit o = Some a -> containerMounted o = true -> baseLoad o = Some bs ->
  inSync a bs (initPixi o st).
Proof.
  intros Ha Hm Hb. unfold initPixi. fold (cleanup st).
  rewrite Ha, Hm, Hb. cbn [negb pixiRef setIsLoading].
  destruct (loadOverlays o (overlays (pixiRef (cleanup st)))) as [ovs w].
  erewrite updateViewportBounds_scene by (cbn; reflexivity).
  unfold inSync. cbn. repeat (split; [reflexivity|]).
  eexists. repeat split; reflexivity.
Qed.

(** The zoom label follows the scale through every event, resizes
    included: none of them changes one without the other. *)
Lemma step_label (sf : Q) (st : State) (e : Event) (mc : Container) :
  mainContainer (pixiRef st) = Some mc ->
  zoomLevel st = Math.round (mc_scale mc * 100) ->
  exists mc',
    mainContainer (pixiRef (step sf st e)) = Some mc' /\
    zoomLevel (step sf st e) = Math.round (mc_scale mc' * 100).
Proof.
  intros Hmc Hz.
  destruct e; cbn [step];
    unfold onResize, onWheel, onPointerDown, onPointerMove, endDrag, onClick,
      handleZoomIn, handleZoomOut, handleResetView, handleMiniMapNavigate.
  all: try destruct (clickMeasurement sf global st).
  all: try destruct (negb (isDragging st)).
  all: rewrite ?Hmc;
    destruct (app (pixiRef st)) as [a|];
    destruct (baseSprite (pixiRef st)) as [bs|].
  all: try match goal with
       | |- context [updateViewportBounds ?X] =>
           destruct (updateViewportBounds_frame X) as (_ & _ & _ & -> & _)
       end.
  all: ref_simpl; rewrite ?Hmc; eexists; (split; [reflexivity|]);
    cbn [zoomLevel set_drag setClickPos setZoomLevel set_mainContainer
         set_pixiRef mc_scale];
    solve [reflexivity | exact Hz].
Qed.

(** X8.  From the moment a page is loaded the zoom label is the scale in
    percent, rounded, through every event.  The rectangle handed to the
    overview is the one computed from the camera as long as the container
    has not been resized: a resize changes the screen and nothing
    recomputes the rectangle for it. *)
Theorem display_follows_camera (sf : Q) (o : Outcome) (st : State)
    (a : Screen) (bs : Sprite) (es : list Event) :
  appInit o = Some a -> containerMounted o = true -> baseLoad o = Some bs ->
  exists mc,
    mainContainer (pixiRef (run sf (initPixi o st) es)) = Some mc /\
    zoomLevel (run sf (initPixi o st) es) = Math.round (mc_scale mc * 100) /\
    ((forall w h, ~ In (Resize w h) es) ->
     viewportBounds (run sf (initPixi o st) es) = boundsOf a mc bs).
Proof.
  intros Ha Hm Hb.
  pose proof (initPixi_inSync o st a bs Ha Hm Hb) as H0.
  assert (L : exists mc,
             mainContainer (pixiRef (run sf (initPixi o st) es)) = Some mc /\
             zoomLevel (run sf (initPixi o st) es)
             = Math.round (mc_scale mc * 100)).
  { destruct H0 as (_ & _ & mc0 & Hmc0 & Hz0 & _).
    generalize dependent (initPixi o st). clear st.
    intros st. revert st mc0.
    induction es as [|e es IH]; intros st mc0 Hmc0 Hz0.
    - exists mc0. split; assumption.
    - cbn [run fold_left].
      destruct (step_label sf st e mc0 Hmc0 Hz0) as (mc1 & H1 & H2).
      apply (IH _ mc1 H1 H2). }
  destruct L as (mc & Hmc & Hz).
  exists mc. split; [exact Hmc|]. split; [exact Hz|].
  intros Hno.
  assert (S : inSync a bs (run sf (initPixi o st) es)).
  { generalize dependent (initPixi o st). clear st.
    intros st H0 _ _. revert st H0.
    induction es as [|e es IH]; intros st H0; [exact H0|].
    cbn [run fold_left]. apply IH.
    - intros w h Hin. apply (Hno w h). right. exact Hin.
    - apply step_inSync; [|exact H0].
      intros w h ->. apply (Hno w h). left. reflexivity. }
  destruct S as (_ & _ & mc2 & Hmc2 & _ & Hv).
  rewrite Hmc in Hmc2. injection Hmc2 as <-. exact Hv.
Qed.

Lemma display_follows_camera_witness :
  exists mc,
    mainContainer (pixiRef (run 1 (initPixi smallPage mount) panGesture))
    = Some mc /\
    zoomLevel (run 1 (initPixi smallPage mount) panGesture)
    = Math.round (mc_scale mc * 100) /\
    viewportBounds (run 1 (initPixi smallPage mount) panGesture)
    = boundsOf (mkScreen 800 660) mc (mkSprite 1000 800).
Proof.
  destruct (display_follows_camera 1 smallPage mount (mkScreen 800 660)
              (mkSprite 1000 800) panGesture) as (mc & H1 & H2 & H3);
    [reflexivity | reflexivity | reflexivity | ].
  exists mc. split; [exact H1|]. split; [exact H2|].
  apply H3. intros w h Hin. cbn in Hin.
  repeat (destruct Hin as [Hin|Hin]; [discriminate Hin|]). exact Hin.
Defined.

(** After a resize the stored rectangle is the one of the old screen
    until the next event that moves the camera. *)
Example resize_leaves_rectangle :
  let zooms := repeat (Wheel (-1) 400 300) 5 in
  let st := run 1 (initPixi smallPage mount) (zooms ++ [Resize 1024 768]) in
  viewportBounds st
  = viewportBounds (run 1 (initPixi smallPage mount) zooms) /\
  match mainContainer (pixiRef st) with
  | Some mc =>
      ~ bwidth (viewportBounds st)
        == bwidth (boundsOf (mkScreen 1024 768) mc (mkSprite 1000 800))
  | None => False
  end.
Proof.
  cbv zeta. split; [vm_compute; reflexivity|].
  vm_compute. discriminate.
Qed.

(** ** The overview, continued *)

(** X9.  What the overview rectangle can be relied on for: it never
    starts left of or above the box and each extent is between 5% and
    100%; and it lies wholly inside the box whenever the visible part it
    is given is at least 5% wide and high. *)
Theorem overview_rectangle_guarantees (vb : Bounds) :
  let s := MiniMap.viewportStyle vb in
  (0 <= MiniMap.s_left s /\ 0 <= MiniMap.s_top s /\
   (5 <= MiniMap.s_width s /\ MiniMap.s_width s <= 100) /\
   (5 <= MiniMap.s_height s /\ MiniMap.s_height s <= 100)) /\
  (5 <= bwidth vb -> 5 <= bheight vb -> MiniMap.withinBox s).
Proof.
  cbv zeta. split.
  - apply viewportStyle_extent.
  - apply viewportStyle_within.
Qed.

Lemma overview_rectangle_guarantees_witness :
  MiniMap.withinBox (MiniMap.viewportStyle (mkBounds 99 0 20 75)).
Proof.
  destruct (overview_rectangle_guarantees (mkBounds 99 0 20 75)) as [_ H].
  apply H; cbn; lra.
Defined.

(** X10.  Navigation from the overview is absolute: where the camera was
    plays no part.  Two viewers on the same screen, page and scale end
    with the same camera, the scale kept, and the page point at the given
    fractions drawn in the middle of the area below the header. *)
Theorem navigate_is_absolute (x y : Q) (st1 st2 : State) (a : Screen)
    (mc1 mc2 : Container) (bs : Sprite) :
  app (pixiRef st1) = Some a -> app (pixiRef st2) = Some a ->
  baseSprite (pixiRef st1) = Some bs -> baseSprite (pixiRef st2) = Some bs ->
  mainContainer (pixiRef st1) = Some mc1 ->
  mainContainer (pixiRef st2) = Some mc2 ->
  mc_scale mc1 = mc_scale mc2 ->
  mainContainer (pixiRef (handleMiniMapNavigate x y st1))
  = mainContainer (pixiRef (handleMiniMapNavigate x y st2)) /\
  exists mc',
    mainContainer (pixiRef (handleMiniMapNavigate x y st1)) = Some mc' /\
    mc_scale mc' = mc_scale mc1 /\
    mc_x mc' + (x * sp_width bs) * mc_scale mc' == width a / 2 /\
    mc_y mc' + (y * sp_height bs) * mc_scale mc'
    == 60 + (height a - 60) / 2.
Proof.
  intros Ha1 Ha2 Hb1 Hb2 Hm1 Hm2 Hs. split.
  - unfold handleMiniMapNavigate.
    rewrite Ha1, Ha2, Hb1, Hb2, Hm1, Hm2, Hs. ref_simpl. reflexivity.
  - apply (handleMiniMapNavigate_centres x y st1 a mc1 bs); assumption.
Qed.

Lemma navigate_is_absolute_witness :
  mainContainer
    (pixiRef (handleMiniMapNavigate (1 # 4) (3 # 4) zoomedIn))
  = mainContainer
      (pixiRef (handleMiniMapNavigate (1 # 4) (3 # 4)
                  (set_mainContainer zoomedIn (mkContainer 2 55 (-7))))).
Proof.
  destruct (navigate_is_absolute (1 # 4) (3 # 4) zoomedIn
              (set_mainContainer zoomedIn (mkContainer 2 55 (-7)))
              (mkScreen 800 660) (mkContainer 2 (-300) (-100))
              (mkContainer 2 55 (-7)) (mkSprite 1000 800)) as [H _];
    [reflexivity | reflexivity | reflexivity | reflexivity | reflexivity
    | reflexivity | reflexivity | exact H].
Defined.

(** X22.  A click inside the overview box reaches the viewer as
    percentages of the box, between 0 and 100 along both axes. *)
Theorem minimap_click_percent (A : Type) (rect : DOMRect) (cx cy : Q)
    (onNavigate : Q -> Q -> A -> A) (st : A) :
  0 < rwidth rect -> 0 < rheight rect ->
  left rect <= cx -> cx <= left rect + rwidth rect ->
  top rect <= cy -> cy <= top rect + rheight rect ->
  exists X Y,
    MiniMap.handleClick (Some rect) cx cy onNavigate st = onNavigate X Y st /\
    (0 <= X /\ X <= 100) /\ (0 <= Y /\ Y <= 100) /\
    X * rwidth rect == 100 * (cx - left rect) /\
    Y * rheight rect == 100 * (cy - top rect).
Proof.
  intros Hw Hh Hx1 Hx2 Hy1 Hy2.
  exists ((cx - left rect) / rwidth rect * 100),
         ((cy - top rect) / rheight rect * 100).
  split; [reflexivity|].
  assert (Hqx : 0 <= (cx - left rect) / rwidth rect /\
                (cx - left rect) / rwidth rect <= 1).
  { split; [apply Qle_shift_div_l|apply Qle_shift_div_r]; lra. }
  assert (Hqy : 0 <= (cy - top rect) / rheight rect /\
                (cy - top rect) / rheight rect <= 1).
  { split; [apply Qle_shift_div_l|apply Qle_shift_div_r]; lra. }
  repeat split; try lra; field; lra.
Qed.

Lemma minimap_click_percent_witness :
  exists X Y,
    MiniMap.handleClick (Some overviewBox) 48 108 handleMiniMapNavigate
      zoomedIn
    = handleMiniMapNavigate X Y zoomedIn /\
    (0 <= X /\ X <= 100) /\ (0 <= Y /\ Y <= 100).
Proof.
  destruct (minimap_click_percent State overviewBox 48 108
              handleMiniMapNavigate zoomedIn)
    as (X & Y & H1 & H2 & H3 & _); try (cbn; lra).
  exists X, Y. repeat split; try apply H2; try apply H3; exact H1.
Defined.

(** X11.  Navigation and overview fit together when the point is given as
    a fraction: if the visible part is no wider than the page and does
    not start before its left edge, the rectangle computed after
    [handleMiniMapNavigate x y] has its middle at [100 x] percent; and
    likewise down the page. *)
Theorem navigate_centres_rectangle (x y : Q) (st : State) (a : Screen)
    (mc : Container) (bs : Sprite) :
  app (pixiRef st) = Some a ->
  mainContainer (pixiRef st) = Some mc ->
  baseSprite (pixiRef st) = Some bs ->
  0 < sp_width bs * mc_scale mc -> 0 < sp_height bs * mc_scale mc ->
  width a <= sp_width bs * mc_scale mc ->
  height a - 60 <= sp_height bs * mc_scale mc ->
  width a / 2 <= x * (sp_width bs * mc_scale mc) ->
  (height a - 60) / 2 <= y * (sp_height bs * mc_scale mc) ->
  let vb := viewportBounds (handleMiniMapNavigate x y st) in
  bx vb + bwidth vb / 2 == 100 * x /\
  by_ vb + bheight vb / 2 == 100 * y.
Proof.
  intros Ha Hmc Hbs Hw Hh Hvw Hvh Hx Hy vb. subst vb.
  unfold handleMiniMapNavigate. rewrite Ha, Hmc, Hbs.
  erewrite updateViewportBounds_scene
    by (ref_simpl; try eassumption; reflexivity).
  unfold setViewportBounds, boundsOf.
  cbn [viewportBounds bx by_ bwidth bheight mc_x mc_y mc_scale].
  assert (Hn1 : ~ sp_width bs == 0) by (intros E; rewrite E in Hw; lra).
  assert (Hn2 : ~ sp_height bs == 0) by (intros E; rewrite E in Hh; lra).
  assert (Hn3 : ~ mc_scale mc == 0) by (intros E; rewrite E in Hw; lra).
  set (kw := sp_width bs * mc_scale mc) in *.
  set (kh := sp_height bs * mc_scale mc) in *.
  assert (Ex : - (width a / 2 - x * sp_width bs * mc_scale mc) / kw * 100
               == 100 * x - width a / kw * 50)
    by (unfold kw; field; split; assumption).
  assert (Ey : - ((height a - 60) / 2 + 60
                  - y * sp_height bs * mc_scale mc - 60) / kh * 100
               == 100 * y - (height a - 60) / kh * 50)
    by (unfold kh; field; split; assumption).
  assert (Hqw : width a / kw <= 1).
  { apply Qle_shift_div_r; lra. }
  assert (Hqh : (height a - 60) / kh <= 1).
  { apply Qle_shift_div_r; lra. }
  assert (Hpx : width a / kw * 50 <= 100 * x).
  { assert (E : width a / kw * 50 == (width a / 2) / kw * 100)
      by (field; lra).
    rewrite E.
    assert (width a / 2 / kw <= x) by (apply Qle_shift_div_r; lra).
    lra. }
  assert (Hpy : (height a - 60) / kh * 50 <= 100 * y).
  { assert (E : (height a - 60) / kh * 50
                == ((height a - 60) / 2) / kh * 100) by (field; lra).
    rewrite E.
    assert ((height a - 60) / 2 / kh <= y) by (apply Qle_shift_div_r; lra).
    lra. }
  unfold Math.max, Math.min.
  rewrite Ex, Ey.
  rewrite (Q.max_r 0 (100 * x - width a / kw * 50)) by lra.
  rewrite (Q.max_r 0 (100 * y - (height a - 60) / kh * 50)) by lra.
  rewrite (Q.min_r 100 (width a / kw * 100)) by lra.
  rewrite (Q.min_r 100 ((height a - 60) / kh * 100)) by lra.
  split; field; lra.
Qed.

Lemma navigate_centres_rectangle_witness :
  let vb := viewportBounds (handleMiniMapNavigate (1 # 2) (1 # 2) zoomedIn) in
  bx vb + bwidth vb / 2 == 100 * (1 # 2) /\
  by_ vb + bheight vb / 2 == 100 * (1 # 2).
Proof.
  apply (navigate_centres_rectangle (1 # 2) (1 # 2) zoomedIn
           (mkScreen 800 660) (mkContainer 2 (-300) (-100))
           (mkSprite 1000 800)); try reflexivity; vm_compute; discriminate.
Defined.

(** ** Accuracy of a measurement *)

Lemma round_bounds (q : Q) :
  q - (1 # 2) < inject_Z (Math.round q) /\
  inject_Z (Math.round q) <= q + (1 # 2).
Proof.
  unfold Math.round.
  pose proof (Qfloor_le (q + (1 # 2))) as H1.
  pose proof (Qlt_floor (q + (1 # 2))) as H2.
  rewrite inject_Z_plus in H2. change (inject_Z 1) with 1 in H2.
  split; lra.
Qed.

(** X12.  A measurement of the WebGL viewer, drawn back onto the screen
    through the scaling factor and the camera, lands within half an
    original unit of the click: within [sf * scale / 2] screen pixels,
    along both axes. *)
Theorem measurement_reprojects (sf : Q) (p : Point) (st : State)
    (mc : Container) (m : ClickPos) :
  mainContainer (pixiRef st) = Some mc ->
  clickMeasurement sf p st = Some m ->
  0 < sf -> 0 < mc_scale mc ->
  let backX := mc_x mc + inject_Z (ix (original m)) * sf * mc_scale mc in
  let backY := mc_y mc + inject_Z (iy (original m)) * sf * mc_scale mc in
  (px p - sf * mc_scale mc / 2 < backX /\
   backX <= px p + sf * mc_scale mc / 2) /\
  (py p - sf * mc_scale mc / 2 < backY /\
   backY <= py p + sf * mc_scale mc / 2).
Proof.
  intros Hmc Hm Hsf Hs. unfold clickMeasurement in Hm. rewrite Hmc in Hm.
  destruct (gtb _ _); [discriminate|]. injection Hm as <-.
  cbn [original ix iy px py].
  set (k := sf * mc_scale mc).
  assert (Hk : 0 < k) by (unfold k; apply Qmult_lt_0_compat; assumption).
  assert (bound : forall d : Q,
             let q := d / mc_scale mc / sf in
             d - k / 2 < inject_Z (Math.round q) * sf * mc_scale mc /\
             inject_Z (Math.round q) * sf * mc_scale mc <= d + k / 2).
  { intros d q. destruct (round_bounds q) as [Hlo Hhi].
    assert (Eq : q * k == d) by (unfold q, k; field; lra).
    assert (Er : inject_Z (Math.round q) * sf * mc_scale mc
                 == inject_Z (Math.round q) * k) by (unfold k; ring).
    rewrite Er. generalize dependent (inject_Z (Math.round q)). intros r.
    intros Hlo Hhi _. clearbody q. clearbody k.
    assert (H1 : (q - (1 # 2)) * k < r * k)
      by (apply Qmult_lt_compat_r; assumption).
    assert (H2 : r * k <= (q + (1 # 2)) * k)
      by (apply Qmult_le_compat_r; [exact Hhi|apply Qlt_le_weak; exact Hk]).
    assert (E1 : (q - (1 # 2)) * k == d - k * (1 # 2))
      by (rewrite <- Eq; ring).
    assert (E2 : (q + (1 # 2)) * k == d + k * (1 # 2))
      by (rewrite <- Eq; ring).
    rewrite E1 in H1. rewrite E2 in H2.
    unfold Qdiv. change (/ 2) with (1 # 2).
    generalize dependent (r * k). intros rk H1 H2. split; lra. }
  destruct (bound (px p - mc_x mc)) as [Hx1 Hx2].
  destruct (bound (py p - mc_y mc)) as [Hy1 Hy2].
  cbv zeta in Hx1, Hx2, Hy1, Hy2.
  cbv zeta. fold k.
  generalize dependent
    (inject_Z (Math.round ((px p - mc_x mc) / mc_scale mc / sf))
     * sf * mc_scale mc).
  generalize dependent
    (inject_Z (Math.round ((py p - mc_y mc) / mc_scale mc / sf))
     * sf * mc_scale mc).
  intros ry Hy1 Hy2 rx Hx1 Hx2. clearbody k.
  unfold Qdiv in *. change (/ 2) with (1 # 2) in *.
  repeat split; lra.
Qed.

Lemma measurement_reprojects_witness :
  clickMeasurement 2 (mkPoint 101 97)
    (onPointerDown (mkPoint 101 97) zoomedIn)
  = Some (mkClickPos (mkIntPoint 101 97) (mkIntPoint 100 49)) /\
  101 - 2 * 2 / 2 < -300 + inject_Z 100 * 2 * 2 /\
  -300 + inject_Z 100 * 2 * 2 <= 101 + 2 * 2 / 2.
Proof.
  split; [vm_compute; reflexivity|].
  destruct (measurement_reprojects 2 (mkPoint 101 97)
              (onPointerDown (mkPoint 101 97) zoomedIn)
              (mkContainer 2 (-300) (-100))
              (mkClickPos (mkIntPoint 101 97) (mkIntPoint 100 49)))
    as [[H1 H2] _];
    [vm_compute; reflexivity | vm_compute; reflexivity
    | reflexivity | reflexivity | ].
  split; [exact H1|exact H2].
Defined.

(** ** Layers *)

(** X13.  After the effect on [layers] and [opacity] has run, an overlay
    is composited exactly when it has loaded and its toggle is on, and
    then at the slider's alpha; the effect leaves z-order alone and never
    brings back an overlay that failed to load. *)
Theorem sync_shows_toggled_layers (layers : Layers.Layers) (opacity : Q)
    (ovs : Overlays) (key : LayerKey) :
  Layers.shown (overlayOf key (Layers.syncOverlays layers opacity ovs))
  = match overlayOf key ovs with
    | Some _ => if Layers.get layers key then Some (opacity / 100) else None
    | None => None
    end /\
  option_map zIndex (overlayOf key (Layers.syncOverlays layers opacity ovs))
  = option_map zIndex (overlayOf key ovs).
Proof.
  destruct key; cbn [overlayOf Layers.syncOverlays ov_red ov_green ov_blue].
  all: match goal with
       | |- context [Layers.syncSprite _ _ _ ?sp] => destruct sp as [o|]
       end; cbn; [|split; reflexivity].
  all: match goal with
       | |- context [if ?b then _ else _] => destruct b
       end; split; reflexivity.
Qed.

(** X14.  The effect forgets what the overlays looked like before: only
    the last toggles and the last opacity count.  So after a layer that
    is on has been switched off and on again, with the effect run after
    each toggle, the overlays are what the effect makes of the toggles
    and the opacity as they stand, whatever the overlays were before; the
    composition of before comes back when the overlays were in that
    state already, that is, when the effect had run since the page was
    loaded. *)
Theorem sync_last_state_wins (l1 l2 : Layers.Layers) (o1 o2 : Q)
    (ovs : Overlays) (key : LayerKey) :
  Layers.syncOverlays l2 o2 (Layers.syncOverlays l1 o1 ovs)
  = Layers.syncOverlays l2 o2 ovs /\
  (Layers.get l2 key = true ->
   let offOn :=
     Layers.syncOverlays
       (Layers.handleLayerToggle key true
          (Layers.handleLayerToggle key false l2)) o2
       (Layers.syncOverlays (Layers.handleLayerToggle key false l2) o2 ovs)
   in
   offOn = Layers.syncOverlays l2 o2 ovs /\
   (ovs = Layers.syncOverlays l2 o2 ovs -> offOn = ovs)).
Proof.
  assert (H : forall la lb oa ob x,
             Layers.syncOverlays lb ob (Layers.syncOverlays la oa x)
             = Layers.syncOverlays lb ob x).
  { intros la lb oa ob x. unfold Layers.syncOverlays, Layers.syncSprite.
    cbn [ov_red ov_green ov_blue].
    destruct (ov_red x), (ov_green x), (ov_blue x); reflexivity. }
  split; [apply H|].
  intros Hk offOn.
  assert (E : Layers.handleLayerToggle key true
                (Layers.handleLayerToggle key false l2) = l2).
  { destruct l2 as [r g b], key; cbn in Hk |- *; subst; reflexivity. }
  assert (R : offOn = Layers.syncOverlays l2 o2 ovs).
  { subst offOn. rewrite H, E. reflexivity. }
  split; [exact R|]. intros Hsync. rewrite R. symmetry. exact Hsync.
Qed.

Lemma sync_last_state_wins_witness :
  Layers.syncOverlays
    (Layers.handleLayerToggle green true
       (Layers.handleLayerToggle green false redHidden)) 30
    (Layers.syncOverlays (Layers.handleLayerToggle green false redHidden) 30
       (Layers.syncOverlays redHidden 30
          (overlays (pixiRef (initPixi smallPage mount)))))
  = Layers.syncOverlays redHidden 30
      (overlays (pixiRef (initPixi smallPage mount))).
Proof.
  destruct (sync_last_state_wins redHidden redHidden 30 30
              (Layers.syncOverlays redHidden 30
                 (overlays (pixiRef (initPixi smallPage mount)))) green)
    as [_ H].
  destruct H as [_ H]; [reflexivity|].
  apply H. reflexivity.
Defined.

(** Straight after a page has loaded the overlays are not in that state:
    with the red toggle off and the slider at 30, all three are
    composited at 0.6, and green switched off and on leaves red hidden
    and the other two at 0.3. *)
Example toggle_after_page_load :
  let ovs := overlays (pixiRef (initPixi smallPage mount)) in
  let offOn :=
    Layers.syncOverlays
      (Layers.handleLayerToggle green true
         (Layers.handleLayerToggle green false redHidden)) 30
      (Layers.syncOverlays (Layers.handleLayerToggle green false redHidden)
         30 ovs) in
  map (fun key => Layers.shown (overlayOf key ovs)) [red; green; blue]
  = [Some (6 # 10); Some (6 # 10); Some (6 # 10)] /\
  map (fun key => Layers.shown (overlayOf key offOn)) [red; green; blue]
  = [None; Some (30 / 100); Some (30 / 100)].
Proof. cbv zeta. split; reflexivity. Qed.

(** X15.  [initPixi] does not look at the toggles or the slider: after a
    page change every overlay that loads is composited at alpha 0.6, also
    one whose toggle is off, until the effect runs again. *)
Theorem page_change_shows_loaded_overlays (o : Outcome) (st : State)
    (a : Screen) (bs : Sprite) (key : LayerKey) :
  appInit o = Some a -> containerMounted o = true -> baseLoad o = Some bs ->
  loaded o key = true ->
  Layers.shown (overlayOf key (overlays (pixiRef (pageChange o st))))
  = Some (6 # 10).
Proof.
  intros Ha Hm Hb Hk. unfold pageChange. rewrite initPixi_cleanup.
  destruct (initPixi_loaded o st a bs Ha Hm Hb) as (Hr & _).
  rewrite Hr. cbn [overlays].
  pose proof (loadOverlays_spec o (overlays (pixiRef (cleanup st))) key) as H.
  rewrite Hk in H. destruct H as [-> _]. reflexivity.
Qed.

Lemma page_change_shows_loaded_overlays_witness :
  Layers.get redHidden red = false /\
  Layers.shown
    (overlayOf red
       (overlays
          (pixiRef
             (pageChange largePage
                (set_pixiRef (initPixi smallPage mount)
                   (mkPixiRef (Some (mkScreen 800 660)) (Some fitted)
                      (Some (mkSprite 1000 800))
                      (Layers.syncOverlays redHidden 30
                         (overlays (pixiRef (initPixi smallPage mount))))))))))
  = Some (6 # 10).
Proof.
  split; [reflexivity|].
  apply (page_change_shows_loaded_overlays largePage _ (mkScreen 800 660)
           (mkSprite 12000 9000) red); reflexivity.
Defined.

(** ** Overlay items of the tiled viewer *)

(** X16.  Moving the opacity slider first sets every loaded overlay to the
    new opacity, hidden layers included; the effect that follows takes the
    hidden ones back to 0 and leaves the shown ones at the new opacity. *)
Theorem tile_opacity_change (value : Q) (st : TileLayers.State) (n : nat)
    (key : LayerKey) :
  TileLayers.itemCount st = Some n -> (2 <= n)%nat ->
  TileLayers.itemOf key
    (TileLayers.items (TileLayers.handleOpacityChange value st))
  = TileLayers.setOpacityOf (TileLayers.itemOf key (TileLayers.items st))
      (value / 100) /\
  TileLayers.itemOf key
    (TileLayers.items
       (TileLayers.layerEffect (TileLayers.handleOpacityChange value st)))
  = TileLayers.setOpacityOf (TileLayers.itemOf key (TileLayers.items st))
      (if Layers.get (TileLayers.layers st) key then value / 100 else 0).
Proof.
  intros Hn Hle. split.
  - destruct key; reflexivity.
  - unfold TileLayers.layerEffect, TileLayers.handleOpacityChange.
    cbn [TileLayers.itemCount TileLayers.items TileLayers.layers
         TileLayers.opacity].
    rewrite Hn.
    assert (E : (n <? 2)%nat = false) by (apply Nat.ltb_ge; exact Hle).
    rewrite E.
    destruct key;
      cbn [TileLayers.itemOf TileLayers.items TileLayers.it_red
           TileLayers.it_green TileLayers.it_blue];
      match goal with
      | |- TileLayers.setOpacityOf (TileLayers.setOpacityOf ?i _) _ = _ =>
          destruct i
      end; reflexivity.
Qed.

Lemma tile_opacity_change_witness :
  TileLayers.itemOf red
    (TileLayers.items (TileLayers.handleOpacityChange 30 tileState))
  = Some (30 / 100) /\
  TileLayers.itemOf red
    (TileLayers.items
       (TileLayers.layerEffect (TileLayers.handleOpacityChange 30 tileState)))
  = Some 0.
Proof.
  apply (tile_opacity_change 30 tileState 3 red); [reflexivity|lia].
Defined.

(** ** The viewport rectangle of the direct-compositing viewer *)

(** X17.  The rectangle [handleTransform] hands to the overview is the
    container seen through the camera: its corner is the content point
    under the container's top left corner, its opposite corner the one
    under the bottom right corner. *)
Theorem handleTransform_corners (container : DOMRect)
    (T : ViewportTransform) (old : Bounds) :
  ~ scale T == 0 ->
  let vb := Transformed.handleTransform (Some container) (Some T) old in
  point_eq (mkPoint (bx vb) (by_ vb)) (screenToContent (mkPoint 0 0) T) /\
  point_eq (mkPoint (bx vb + bwidth vb) (by_ vb + bheight vb))
           (screenToContent (mkPoint (rwidth container) (rheight container))
              T).
Proof.
  intros Hs vb. subst vb.
  unfold point_eq, screenToContent, Transformed.handleTransform.
  cbn [px py bx by_ bwidth bheight].
  repeat split; field; exact Hs.
Qed.

Lemma handleTransform_corners_witness :
  let vb := Transformed.handleTransform (Some viewerBox)
              (Some (mkTransform 2 (-200) (-100))) (mkBounds 0 0 100 100) in
  point_eq (mkPoint (bx vb) (by_ vb))
           (screenToContent (mkPoint 0 0) (mkTransform 2 (-200) (-100))) /\
  point_eq (mkPoint (bx vb + bwidth vb) (by_ vb + bheight vb))
           (screenToContent (mkPoint 800 600) (mkTransform 2 (-200) (-100))).
Proof.
  apply (handleTransform_corners viewerBox (mkTransform 2 (-200) (-100))
           (mkBounds 0 0 100 100)).
  cbn. discriminate.
Defined.

(** X18.  The optimised handler computes the same rectangle as the first
    one whenever the library reports numbers and a scale other than 0,
    and the zoom label is that scale in percent; with a scale that is
    0 or missing it takes the scale to be 1, so that the rectangle is the
    container shifted by the position. *)
Theorem handleTransformEnd_agrees (container : DOMRect) (sv : ComparisonViewer.JsValue)
    (x y : Q) (old : Bounds * Z) :
  let state := Transformed.mkRefState sv (ComparisonViewer.JsNum x)
                 (ComparisonViewer.JsNum y) in
  let vb := fst (Transformed.handleTransformEnd (Some container) (Some state)
                   old) in
  let zoom := snd (Transformed.handleTransformEnd (Some container)
                     (Some state) old) in
  (forall s, sv = ComparisonViewer.JsNum s -> ~ s == 0 ->
     let vb0 := Transformed.handleTransform (Some container)
                  (Some (mkTransform s x y)) (fst old) in
     bx vb == bx vb0 /\ by_ vb == by_ vb0 /\
     bwidth vb == bwidth vb0 /\ bheight vb == bheight vb0 /\
     zoom = Math.round (s * 100)) /\
  (ComparisonViewer.truthy sv = false ->
     bx vb == - x /\ by_ vb == - y /\
     bwidth vb == rwidth container /\ bheight vb == rheight container /\
     zoom = 100%Z).
Proof.
  cbv zeta.
  assert (Hpos : forall v : Q, Transformed.orElse (ComparisonViewer.JsNum v) 0
                               == v).
  { intros v. cbn. destruct (Qeq_bool v 0) eqn:E; [|reflexivity].
    apply Qeq_bool_iff in E. symmetry. exact E. }
  unfold Transformed.handleTransformEnd, Transformed.handleTransform.
  cbn [fst snd bx by_ bwidth bheight Transformed.r_scale
       Transformed.r_positionX Transformed.r_positionY scale translateX
       translateY].
  split.
  - intros s -> Hs.
    assert (Es : Transformed.orElse (ComparisonViewer.JsNum s) 1 = s).
    { cbn. destruct (Qeq_bool s 0) eqn:E; [|reflexivity].
      apply Qeq_bool_iff in E. contradiction. }
    rewrite Es, !Hpos. repeat split; reflexivity.
  - intros Hf.
    assert (Es : Transformed.orElse sv 1 = 1).
    { destruct sv as [| | |q]; try reflexivity.
      cbn in Hf |- *. apply negb_false_iff in Hf. rewrite Hf. reflexivity. }
    rewrite Es, !Hpos. repeat split; try reflexivity; field.
Qed.

Lemma handleTransformEnd_agrees_witness :
  let state := Transformed.mkRefState (ComparisonViewer.JsNum 0)
                 (ComparisonViewer.JsNum (-200)) (ComparisonViewer.JsNum 0) in
  let r := Transformed.handleTransformEnd (Some viewerBox) (Some state)
             (mkBounds 0 0 100 100, 100%Z) in
  bx (fst r) == - (-200) /\ bwidth (fst r) == 800 /\ snd r = 100%Z.
Proof.
  destruct (handleTransformEnd_agrees viewerBox (ComparisonViewer.JsNum 0)
              (-200) 0 (mkBounds 0 0 100 100, 100%Z)) as [_ H].
  destruct H as (H1 & _ & H3 & _ & H5); [reflexivity|].
  split; [exact H1|]. split; [exact H3|exact H5].
Defined.

(** ** Throttling *)

Lemma burst_throttled (A R : Type) (func : A -> R) (argss : list A)
    (st : Throttle.State A R) :
  Throttle.inThrottle A R st = true ->
  Throttle.burst A R func argss st
  = (st, repeat (Throttle.lastResult A R st) (length argss)).
Proof.
  intros Ht. induction argss as [|args rest IH]; [reflexivity|].
  cbn [Throttle.burst length repeat]. unfold Throttle.call. rewrite Ht.
  cbn [negb]. rewrite IH. reflexivity.
Qed.

(** X19.  Of a burst of calls between two animation frames only the first
    reaches the wrapped function; every call of the burst returns the
    result of that first call, and the frame opens the throttle again. *)
Theorem throttle_first_call_only (A R : Type) (func : A -> R) (first : A)
    (rest : list A) (st : Throttle.State A R) :
  Throttle.inThrottle A R st = false ->
  Throttle.applied A R (fst (Throttle.burst A R func (first :: rest) st))
  = Throttle.applied A R st ++ [first] /\
  snd (Throttle.burst A R func (first :: rest) st)
  = repeat (Some (func first)) (S (length rest)) /\
  Throttle.inThrottle A R
    (Throttle.frame A R (fst (Throttle.burst A R func (first :: rest) st))) = false.
Proof.
  intros Ht.
  assert (E : Throttle.burst A R func (first :: rest) st
              = (Throttle.mkState A R true (Some (func first))
                   (Throttle.applied A R st ++ [first]),
                 repeat (Some (func first)) (S (length rest)))).
  { cbn [Throttle.burst]. unfold Throttle.call. rewrite Ht. cbn [negb].
    rewrite burst_throttled by reflexivity. reflexivity. }
  rewrite E. repeat split; reflexivity.
Qed.

Lemma throttle_first_call_only_witness :
  Throttle.applied Z Z
    (fst (Throttle.burst Z Z Z.succ [5; 7; 9]%Z (Throttle.initial Z Z)))
  = [5%Z] /\
  snd (Throttle.burst Z Z Z.succ [5; 7; 9]%Z (Throttle.initial Z Z))
  = [Some 6; Some 6; Some 6]%Z.
Proof.
  destruct (throttle_first_call_only Z Z Z.succ 5%Z [7; 9]%Z
              (Throttle.initial Z Z)) as (H1 & H2 & _); [reflexivity|].
  split; [exact H1|exact H2].
Defined.

(** ** The application around the viewer *)

(** X20.  Whatever uploads, page changes, resets and closed error banners
    there have been, in whatever order the requests were answered and
    however each of them ended, the results step always has session data
    to show: the main content is never empty.  A failed page change
    keeps the step and the main content, viewer and page as they were,
    and puts its message into the error banner; without session data
    it does nothing. *)
Theorem results_have_data (U P D M : Type) (newSession : U -> P -> D)
    (spread : option D -> P -> D) (es : list (App.Event U P M)) :
  let st := fold_left (App.handle U P D M newSession spread) es
              (App.initial D M) in
  App.main D M (App.render D M st) <> App.Blank D /\
  forall message,
    let failed := App.handlePageChange P D M spread (inr message) st in
    App.main D M (App.render D M failed) = App.main D M (App.render D M st) /\
    App.stepper D M (App.render D M failed)
    = App.stepper D M (App.render D M st) /\
    App.newComparison D M (App.render D M failed)
    = App.newComparison D M (App.render D M st) /\
    App.banner D M (App.render D M failed)
    = match App.sessionData D M st with
      | Some _ => Some message
      | None => App.banner D M (App.render D M st)
      end.
Proof.
  cbv zeta.
  assert (Inv : forall st : App.State D M,
             (App.step D M st = App.results ->
              App.sessionData D M st <> None) ->
             App.step D M
               (fold_left (App.handle U P D M newSession spread) es st)
             = App.results ->
             App.sessionData D M
               (fold_left (App.handle U P D M newSession spread) es st)
             <> None).
  { induction es as [|e es IH]; intros st H; [exact H|].
    cbn [fold_left]. apply IH.
    destruct e as [|[u r|m]|[r|m]|[r|m]| |]; cbn;
      unfold App.handlePageChange;
      try destruct (App.sessionData D M st) eqn:E; cbn;
      try rewrite E; try discriminate; try exact H;
      intros Hs; try discriminate; try (rewrite <- E; apply H; exact Hs). }
  assert (H0 : App.step D M (App.initial D M) = App.results ->
               App.sessionData D M (App.initial D M) <> None)
    by (cbn; discriminate).
  specialize (Inv (App.initial D M) H0). clear H0.
  set (st := fold_left (App.handle U P D M newSession spread) es
               (App.initial D M)) in *.
  split.
  - unfold App.render. cbn [App.main].
    destruct (App.step D M st) eqn:Es; try discriminate.
    destruct (App.sessionData D M st) eqn:Ed; [discriminate|].
    exfalso. apply Inv; reflexivity.
  - intros message. unfold App.handlePageChange, App.render.
    destruct (App.sessionData D M st) eqn:Ed; cbn; rewrite ?Ed;
      repeat split; reflexivity.
Qed.

(** ** Clicks of the direct-compositing viewer *)

(** X21.  A measurement is not accumulated: of two clicks in a row the
    second decides the state alone, in both revisions of the viewer. *)
Theorem second_click_decides (data : option ComparisonViewer.SessionData)
    (e1 e2 : ComparisonViewer.MouseEvent) (st : ComparisonViewer.State) :
  ComparisonViewer.truthy (ComparisonViewer.scalingFactorOf data) = true ->
  ComparisonViewer.handleClick data e2
    (ComparisonViewer.handleClick data e1 st)
  = ComparisonViewer.handleClick data e2 st /\
  (ComparisonViewer.img e2 <> None ->
   ComparisonViewer.handleClickOptimized data e2
     (ComparisonViewer.handleClickOptimized data e1 st)
   = ComparisonViewer.handleClickOptimized data e2 st).
Proof.
  unfold ComparisonViewer.handleClick, ComparisonViewer.handleClickOptimized.
  destruct (ComparisonViewer.scalingFactorOf data) as [| | |s];
    cbn [ComparisonViewer.truthy]; try discriminate.
  intros Ht. apply negb_true_iff in Ht. rewrite Ht. split; [reflexivity|].
  intros Hi. destruct (ComparisonViewer.img e2); [|contradiction].
  destruct (ComparisonViewer.img e1); reflexivity.
Qed.

Lemma second_click_decides_witness :
  let data := Some (ComparisonViewer.mkData (ComparisonViewer.JsNum 2)) in
  let e1 := ComparisonViewer.clickEvent (mkTransform 1 0 0) (mkPoint 10 80)
              1000 800 in
  let e2 := ComparisonViewer.clickEvent (mkTransform 1 0 0) (mkPoint 400 360)
              1000 800 in
  ComparisonViewer.handleClick data e2
    (ComparisonViewer.handleClick data e1 measuredBefore)
  = ComparisonViewer.handleClick data e2 measuredBefore.
Proof.
  cbv zeta.
  destruct (second_click_decides
              (Some (ComparisonViewer.mkData (ComparisonViewer.JsNum 2)))
              (ComparisonViewer.clickEvent (mkTransform 1 0 0)
                 (mkPoint 10 80) 1000 800)
              (ComparisonViewer.clickEvent (mkTransform 1 0 0)
                 (mkPoint 400 360) 1000 800) measuredBefore) as [H _];
    [reflexivity|exact H].
Defined.
